(** * source-twilio: streams.py

    A shallow embedding of
    [airbyte-integrations/connectors/source-twilio/source_twilio/streams.py]
    and the properties of its pagination tokens, incremental state and
    nested slices.

    Conventions.
    - A Python [str] is a [string]: the bytes of its UTF-8 encoding.  Byte-wise
      lexicographic order on UTF-8 coincides with Python's code point order.
    - A decoded JSON document is a [json] value; an object keeps its
      items in the order the decoder delivers them and is read with
      first-match lookup.
    - A mapping that the connector itself builds (request parameters, page
      tokens, stream state, slices) is a [gmap string json].
    - A JSON number is an integer; nothing here reads more of a number
      than its truth value.
    - A generator is the list of what it yields.
    - A Python exception is the [Err] branch of [result]; [OutOfFuel] is
      not an exception but the bound of a pagination loop that has no
      bound in the source. *)

From Stdlib Require Import ZArith Ascii String List Bool Lia.
From stdpp Require Import base option list strings gmap fin_maps.

Local Open Scope string_scope.
Local Open Scope Z_scope.

Set Warnings "-register-all".

#[local] Arguments String.append !_ _ / : simpl nomatch.

(** ** Values *)

Inductive json : Type :=
| JNull : json
| JBool (b : bool) : json
| JNum (z : Z) : json
| JStr (s : string) : json
| JArr (l : list json) : json
| JObj (o : list (string * json)) : json.

Inductive pyerror : Type :=
| KeyError (k : string)
| AttributeError
| TypeError
| ValueError
| ParserError
| HTTPError
| OutOfFuel.

Inductive result (A : Type) : Type :=
| Ok (a : A)
| Err (e : pyerror).
Arguments Ok {A} a.
Arguments Err {A} e.

Definition bind {A B} (r : result A) (k : A -> result B) : result B :=
  match r with
  | Ok a => k a
  | Err e => Err e
  end.

Notation "'let/r' x ':=' r 'in' k" := (bind r (fun x => k))
  (at level 10, x name, r at level 100, k at level 200).
Notation "'let/r' ' p ':=' r 'in' k" :=
  (bind r (fun x => match x with p => k end))
  (at level 10, p strict pattern, r at level 100, k at level 200).

(** Truth value testing ([if x:], [x or y], [x and y]). *)
Definition truthy (v : json) : bool :=
  match v with
  | JNull => false
  | JBool b => b
  | JNum z => negb (z =? 0)
  | JStr s => negb (String.eqb s "")
  | JArr l => match l with [] => false | _ => true end
  | JObj o => match o with [] => false | _ => true end
  end.

Definition py_or (a b : json) : json := if truthy a then a else b.
Definition py_and (a b : json) : json := if truthy a then b else a.

(** ** Decoded objects *)

(** First-match lookup in the items of a decoded object. *)
Fixpoint assoc (k : string) (o : list (string * json)) : option json :=
  match o with
  | [] => None
  | (k', v) :: o' => if String.eqb k k' then Some v else assoc k o'
  end.

(** [d.get(k, default)]; anything but a dict has no attribute [get]. *)
Definition py_get_default (d : json) (k : string) (default : json) : result json :=
  match d with
  | JObj o => Ok (match assoc k o with Some v => v | None => default end)
  | _ => Err AttributeError
  end.

(** [d.get(k)] *)
Definition py_get (d : json) (k : string) : result json :=
  py_get_default d k JNull.

(** [d[k]] *)
Definition py_getitem (d : json) (k : string) : result json :=
  match d with
  | JObj o => match assoc k o with Some v => Ok v | None => Err (KeyError k) end
  | _ => Err TypeError
  end.

(** [m.get(k)] on a mapping the connector owns. *)
Definition map_get (m : gmap string json) (k : string) : json :=
  match m !! k with Some v => v | None => JNull end.

(** [dict(pairs)]: a later pair overrides an earlier one with the same key. *)
Definition py_dict (l : list (string * string)) : gmap string json :=
  fold_left (fun m kv => <[kv.1 := JStr kv.2]> m) l ∅.

(** [m.update] with the entries of [other] as keyword arguments: the
    entries of [other] win. *)
Definition py_update (m other : gmap string json) : gmap string json :=
  other ∪ m.

(** ** Strings *)

Definition ascii_eqb (a b : ascii) : bool := Ascii.eqb a b.

(** [c in s] *)
Fixpoint str_mem (c : ascii) (s : string) : bool :=
  match s with
  | EmptyString => false
  | String a s' => ascii_eqb a c || str_mem c s'
  end.

(** [s.split(c, 1)] when [c] occurs in [s]: the text before and after the
    first [c]. *)
Fixpoint str_cut (c : ascii) (s : string) : option (string * string) :=
  match s with
  | EmptyString => None
  | String a s' =>
      if ascii_eqb a c then Some (EmptyString, s')
      else match str_cut c s' with
           | Some (l, r) => Some (String a l, r)
           | None => None
           end
  end.

(** [s.split(c)] *)
Fixpoint str_split (c : ascii) (s : string) : list string :=
  match s with
  | EmptyString => [EmptyString]
  | String a s' =>
      if ascii_eqb a c then EmptyString :: str_split c s'
      else match str_split c s' with
           | h :: t => String a h :: t
           | [] => [String a EmptyString]
           end
  end.

(** [s.replace(a, b)] for single characters. *)
Fixpoint str_replace (a b : ascii) (s : string) : string :=
  match s with
  | EmptyString => EmptyString
  | String c s' => String (if ascii_eqb c a then b else c) (str_replace a b s')
  end.

(** Removal of every character satisfying [p]. *)
Fixpoint str_remove (p : ascii -> bool) (s : string) : string :=
  match s with
  | EmptyString => EmptyString
  | String c s' => if p c then str_remove p s' else String c (str_remove p s')
  end.

(** [s] without its prefix [pre], when it starts with it. *)
Fixpoint str_strip_prefix (pre s : string) : option string :=
  match pre with
  | EmptyString => Some s
  | String a pre' =>
      match s with
      | String b s' => if ascii_eqb a b then str_strip_prefix pre' s' else None
      | EmptyString => None
      end
  end.

Fixpoint str_forall (p : ascii -> bool) (s : string) : bool :=
  match s with
  | EmptyString => true
  | String c s' => p c && str_forall p s'
  end.

Definition code (c : ascii) : N := N_of_ascii c.

Definition in_range (lo hi : N) (c : ascii) : bool :=
  ((lo <=? code c) && (code c <=? hi))%N.

Definition is_upper : ascii -> bool := in_range 65 90.
Definition is_lower : ascii -> bool := in_range 97 122.
Definition is_digit : ascii -> bool := in_range 48 57.
Definition is_ascii (c : ascii) : bool := (code c <? 128)%N.

Definition to_lower (c : ascii) : ascii :=
  if is_upper c then ascii_of_N (code c + 32) else c.

Fixpoint str_lower (s : string) : string :=
  match s with
  | EmptyString => EmptyString
  | String c s' => String (to_lower c) (str_lower s')
  end.

(** Value of a hexadecimal digit, either case. *)
Definition hex_val (c : ascii) : option N :=
  if is_digit c then Some (code c - 48)%N
  else if in_range 65 70 c then Some (code c - 55)%N
  else if in_range 97 102 c then Some (code c - 87)%N
  else None.

(** ** External libraries

    What the connector calls and this file cannot compute is taken as an
    interface: the date parser and formatter of [pendulum], the UTF-8 decoder
    with replacement and the Unicode normalisation check behind
    [urllib.parse], and the textual form of a value inside an f-string. *)

Class PyLib : Type := {
  (** [pendulum.DateTime] *)
  datetime : Type;
  (** [pendulum.parse(v, strict=b)] *)
  pendulum_parse : bool -> json -> result datetime;
  (** [dt.strftime(template)] *)
  strftime : datetime -> string -> string;
  (** [bytes.decode("utf-8", "replace")], on the UTF-8 form of the result *)
  decode_utf8_replace : string -> string;
  (** whether [_checknetloc] raises on a network location that is not ASCII *)
  nfkc_rejects : string -> bool;
  (** [format(v)] of a value that is not a [str] *)
  py_format_other : json -> string
}.

(** [f"{v}"] *)
Definition py_format `{PyLib} (v : json) : string :=
  match v with
  | JStr s => s
  | _ => py_format_other v
  end.

(** ** [urllib.parse] (CPython 3.9) *)

Module urllib.
Section urllib.
Context `{PyLib}.

(** [unquote_to_bytes]: every [%XX] with two hexadecimal digits becomes
    the byte it denotes; any other [%] stays. *)
Fixpoint unquote_to_bytes (s : string) : string :=
  match s with
  | EmptyString => EmptyString
  | String c s' =>
      if ascii_eqb c "%" then
        match s' with
        | String h (String l s'') =>
            match hex_val h, hex_val l with
            | Some a, Some b =>
                String (ascii_of_N (16 * a + b)) (unquote_to_bytes s'')
            | _, _ => String c (unquote_to_bytes s')
            end
        | _ => String c (unquote_to_bytes s')
        end
      else String c (unquote_to_bytes s')
  end.

Definition decode_run (run : string) : string :=
  if String.eqb run "" then "" else decode_utf8_replace (unquote_to_bytes run).

(** The maximal ASCII runs are decoded one by one, the text between
    them is kept. *)
Fixpoint unquote_runs (run s : string) : string :=
  match s with
  | EmptyString => decode_run run
  | String c s' =>
      if is_ascii c then unquote_runs (run ++ String c "") s'
      else decode_run run ++ String c (unquote_runs "" s')
  end.

Definition unquote (s : string) : string :=
  if str_mem "%" s then unquote_runs "" s else s.

Record SplitResult : Type := mkSplit {
  scheme : string;
  netloc : string;
  path : string;
  query : string;
  fragment : string
}.

Definition scheme_char (c : ascii) : bool :=
  is_lower c || is_upper c || is_digit c || str_mem c "+-.".

(** Tab, carriage return and line feed are removed from a URL. *)
Definition unsafe_url_bytes : string :=
  String "009" (String "013" (String "010" EmptyString)).

Definition unsafe_url_byte (c : ascii) : bool := str_mem c unsafe_url_bytes.

(** The longest prefix free of [/], [?] and [#], and what follows it. *)
Fixpoint splitnetloc (s : string) : string * string :=
  match s with
  | EmptyString => (EmptyString, EmptyString)
  | String c s' =>
      if str_mem c "/?#" then (EmptyString, s)
      else let '(n, r) := splitnetloc s' in (String c n, r)
  end.

Definition checknetloc (n : string) : result unit :=
  if String.eqb n "" || str_forall is_ascii n then Ok tt
  else if nfkc_rejects n then Err ValueError else Ok tt.

Definition urlsplit (url0 : string) : result SplitResult :=
  let url := str_remove unsafe_url_byte url0 in
  let '(scheme, url) :=
    match str_cut ":" url with
    | Some (pre, rest) =>
        if negb (String.eqb pre "") && str_forall scheme_char pre
        then (str_lower pre, rest) else ("", url)
    | None => ("", url)
    end in
  let/r '(netloc, url) :=
    match str_strip_prefix "//" url with
    | Some rest =>
        let '(n, r) := splitnetloc rest in
        if (str_mem "[" n && negb (str_mem "]" n))
           || (str_mem "]" n && negb (str_mem "[" n))
        then Err ValueError else Ok (n, r)
    | None => Ok ("", url)
    end in
  let '(url, fragment) :=
    match str_cut "#" url with
    | Some (l, r) => (l, r)
    | None => (url, "")
    end in
  let '(url, query) :=
    match str_cut "?" url with
    | Some (l, r) => (l, r)
    | None => (url, "")
    end in
  let/r _ := checknetloc netloc in
  Ok (mkSplit scheme netloc url query fragment).

(** [urlparse] is [urlsplit] followed by the separation of the parameters
    of the last path segment; the query is that of [urlsplit]. *)
Definition urlparse (url : string) : result SplitResult := urlsplit url.

(** [urlparse(v)] on a value: what is not a [str] has no [decode]. *)
Definition urlparse_value (v : json) : result SplitResult :=
  match v with
  | JStr s => urlparse s
  | _ => Err AttributeError
  end.

Definition qs_field (keep_blank_values strict_parsing : bool)
    (name_value : string) : result (list (string * string)) :=
  if String.eqb name_value "" && negb strict_parsing then Ok []
  else
    let/r nv :=
      match str_cut "=" name_value with
      | Some (n, v) => Ok (Some (n, v))
      | None =>
          if strict_parsing then Err ValueError
          else if keep_blank_values then Ok (Some (name_value, ""))
          else Ok None
      end in
    match nv with
    | None => Ok []
    | Some (n, v) =>
        if negb (String.eqb v "") || keep_blank_values
        then Ok [(unquote (str_replace "+" " " n),
                  unquote (str_replace "+" " " v))]
        else Ok []
    end.

Fixpoint qs_fields (keep_blank_values strict_parsing : bool)
    (pairs : list string) : result (list (string * string)) :=
  match pairs with
  | [] => Ok []
  | name_value :: rest =>
      let/r r1 := qs_field keep_blank_values strict_parsing name_value in
      let/r r2 := qs_fields keep_blank_values strict_parsing rest in
      Ok (r1 ++ r2)%list
  end.

(** [parse_qsl(qs, keep_blank_values, strict_parsing)] with the separator
    [&]. *)
Definition parse_qsl_with (keep_blank_values strict_parsing : bool)
    (qs : string) : result (list (string * string)) :=
  qs_fields keep_blank_values strict_parsing (str_split "&" qs).

(** [parse_qsl(qs)]: both flags default to [False]. *)
Definition parse_qsl (qs : string) : result (list (string * string)) :=
  parse_qsl_with false false qs.

End urllib.
End urllib.

(** ** Stream classes *)

(** The class that provides [path] and [stream_slices]. *)
Inductive shape : Type :=
| TwilioStreamShape
| AlertsShape
| TwilioNestedStreamShape
| DependentPhoneNumbersShape
| UsageNestedStreamShape (path_name : string).

(** The attributes of [IncrementalTwilioStream]. *)
Record incremental : Type := mkIncremental {
  cursor_field : string;
  incremental_filter_field : string;
  time_filter_template : string
}.

(** A stream class: its attributes after resolution of the defaults and of
    the method resolution order. [media_exist_validation] holds the items of
    the class dictionary; every sentinel in the source is a [str]. *)
Inductive stream : Type := mkStream {
  name : string;
  url_base : string;
  data_field : string;
  subresource_uri_key : string;
  media_exist_validation : list (string * string);
  stream_shape : shape;
  stream_incremental : option incremental;
  parent_stream : option stream
}.

Definition page_size : Z := 100.

(** A page token, a stream state, a slice, the parameters of a request. *)
Abbreviation mapping := (gmap string json).

(** [if m:] on an optional mapping: [None] and the empty mapping are false. *)
Definition truthy_mapping (m : option mapping) : bool :=
  match m with
  | Some m => negb (bool_decide (m = ∅))
  | None => false
  end.

(** [x > y] between a [str] and a value; ordering a [str] against anything
    else raises. *)
Definition py_gt_str (x : json) (y : string) : result bool :=
  match x with
  | JStr s => Ok (String.ltb y s)
  | _ => Err TypeError
  end.

(** [max(a, b)] with [a] a [str]: [b] is taken when [b > a]. *)
Definition py_max (a : string) (b : json) : result json :=
  let/r gt := py_gt_str b a in
  Ok (if gt then b else JStr a).

(** [x != v] with [v] a [str]. *)
Definition py_ne_str (x : json) (v : string) : bool :=
  match x with
  | JStr s => negb (String.eqb s v)
  | _ => true
  end.

Definition is_continuation : ascii -> bool := in_range 128 191.

(** The characters of a [str], each with the bytes of its encoding. *)
Fixpoint utf8_chars (cur s : string) : list json :=
  let flush := if String.eqb cur "" then [] else [JStr cur] in
  match s with
  | EmptyString => flush
  | String c s' =>
      if is_continuation c then utf8_chars (cur ++ String c "") s'
      else (flush ++ utf8_chars (String c "") s')%list
  end.

(** [yield from v] *)
Definition py_iter (v : json) : result (list json) :=
  match v with
  | JArr l => Ok l
  | JStr s => Ok (utf8_chars "" s)
  | JObj o => Ok (map (fun kv => JStr kv.1) o)
  | _ => Err TypeError
  end.

(** [str.title] on ASCII letters, which is what a stream name holds. *)
Fixpoint str_title (prev_cased : bool) (s : string) : string :=
  match s with
  | EmptyString => EmptyString
  | String c s' =>
      let c' :=
        if prev_cased then to_lower c
        else if is_lower c then ascii_of_N (code c - 32) else c in
      String c' (str_title (is_lower c || is_upper c) s')
  end.

Module TwilioStream.
Section TwilioStream.
Context `{PyLib}.

(** Modelled from the spec: [HttpStream.request_params] of the framework,
    which the connector extends; on its own it contributes no parameter. *)
Definition HttpStream_request_params (stream_state : mapping)
    (next_page_token : option mapping) : mapping := ∅.

Definition path (self : stream) : string :=
  str_title false (name self) ++ ".json".

Definition next_page_token (response_json : json) : result (option mapping) :=
  let stream_data := response_json in
  let/r next_page_uri := py_get stream_data "next_page_uri" in
  if truthy next_page_uri then
    let/r next_url := urllib.urlparse_value next_page_uri in
    let/r pairs := urllib.parse_qsl (urllib.query next_url) in
    let next_page_params := py_dict pairs in
    Ok (Some next_page_params)
  else Ok None.

Definition parse_response (self : stream) (response_json : json)
    : result (list json) :=
  let/r records := py_get_default response_json (data_field self) (JArr []) in
  py_iter records.

Definition request_params (stream_state : mapping)
    (next_page_token : option mapping) : mapping :=
  let params := HttpStream_request_params stream_state next_page_token in
  let params := <["PageSize" := JNum page_size]> params in
  if truthy_mapping next_page_token
  then py_update params (default ∅ next_page_token)
  else params.

End TwilioStream.
End TwilioStream.

(** The framework around the connector: the credentials handed to every
    stream, and the transport that performs one GET and decodes the body. *)
Class Framework : Type := {
  Auth : Type;
  send_request : string -> json -> mapping -> Auth -> result json
}.

(** A stream object: its class and what [__init__] stores. Only an
    incremental class takes a [start_date]. *)
Record instance `{Framework} : Type := mkInstance {
  cls : stream;
  authenticator : Auth;
  _start_date : option string
}.
Arguments mkInstance {_} _ _ _.

Definition opt_str (o : option string) : json :=
  match o with Some s => JStr s | None => JNull end.

Module IncrementalTwilioStream.
Section IncrementalTwilioStream.
Context `{PyLib}.

Definition get_updated_state (self : incremental)
    (current_stream_state : mapping) (latest_record : json)
    : result mapping :=
  let/r cursor_value := py_getitem latest_record (cursor_field self) in
  let/r parsed := pendulum_parse false cursor_value in
  let latest_benchmark := strftime parsed (time_filter_template self) in
  if truthy (map_get current_stream_state (cursor_field self)) then
    let/r m := py_max latest_benchmark
                 (map_get current_stream_state (cursor_field self)) in
    Ok {[ cursor_field self := m ]}
  else Ok {[ cursor_field self := JStr latest_benchmark ]}.

Definition request_params (self : incremental) (start : option string)
    (stream_state : mapping) (next_page_token : option mapping)
    : result mapping :=
  let params := TwilioStream.request_params stream_state next_page_token in
  let start_date :=
    py_or (map_get stream_state (cursor_field self)) (opt_str start) in
  if truthy start_date then
    let/r parsed := pendulum_parse true start_date in
    Ok (py_update params
          {[ incremental_filter_field self :=
               JStr (strftime parsed (time_filter_template self)) ]})
  else Ok params.

End IncrementalTwilioStream.
End IncrementalTwilioStream.

Module SyncMode.
Inductive t : Type := full_refresh | incremental.
End SyncMode.

(** [for x in l: yield from f(x)] *)
Fixpoint flat_mapM {A B} (f : A -> result (list B)) (l : list A)
    : result (list B) :=
  match l with
  | [] => Ok []
  | x :: l' =>
      let/r ys := f x in
      let/r rest := flat_mapM f l' in
      Ok (ys ++ rest)%list
  end.

(** [s[k]] on a slice; the slice of a stream without parent is [None]. *)
Definition slice_getitem (stream_slice : option mapping) (k : string)
    : result json :=
  match stream_slice with
  | Some m => match m !! k with Some v => Ok v | None => Err (KeyError k) end
  | None => Err TypeError
  end.

Module TwilioNestedStream.

Definition path (stream_slice : option mapping) : result json :=
  slice_getitem stream_slice "subresource_uri".

(** The loop over [media_exist_validation.items()], from the value of
    [validated] before it. *)
Fixpoint validate (checks : list (string * string)) (item validated : json)
    : result json :=
  match checks with
  | [] => Ok validated
  | (key, value) :: rest =>
      let/r got := py_get item key in
      let validated := py_and got (JBool (py_ne_str got value)) in
      if negb (truthy validated) then Ok validated
      else validate rest item validated
  end.

(** The body of the loops of [stream_slices]: what one parent record
    yields. *)
Definition slices_of_item (self : stream) (item : json) : result (list mapping) :=
  let/r uris := py_get_default item "subresource_uris" (JObj []) in
  let/r locator := py_get uris (subresource_uri_key self) in
  if truthy locator then
    let/r validated := validate (media_exist_validation self) item (JBool true) in
    if truthy validated then
      let/r uris' := py_getitem item "subresource_uris" in
      let/r uri := py_getitem uris' (subresource_uri_key self) in
      Ok [ {[ "subresource_uri" := uri ]} ]
    else Ok []
  else Ok [].

End TwilioNestedStream.

Module DependentPhoneNumbers.
Section DependentPhoneNumbers.
Context `{PyLib}.

Definition path (stream_slice : option mapping) : result json :=
  let/r account_sid := slice_getitem stream_slice "account_sid" in
  let/r sid := slice_getitem stream_slice "sid" in
  Ok (JStr ("Accounts/" ++ py_format account_sid ++ "/Addresses/"
            ++ py_format sid ++ "/DependentPhoneNumbers.json")).

Definition slices_of_item (item : json) : result (list mapping) :=
  let/r sid := py_getitem item "sid" in
  let/r account_sid := py_getitem item "account_sid" in
  Ok [ <["account_sid" := account_sid]> {[ "sid" := sid ]} ].

End DependentPhoneNumbers.
End DependentPhoneNumbers.

Module UsageNestedStream.
Section UsageNestedStream.
Context `{PyLib}.

Definition path (path_name : string) (stream_slice : option mapping)
    : result json :=
  let/r account_sid := slice_getitem stream_slice "account_sid" in
  Ok (JStr ("Accounts/" ++ py_format account_sid ++ "/Usage/"
            ++ path_name ++ ".json")).

Definition slices_of_item (item : json) : result (list mapping) :=
  let/r sid := py_getitem item "sid" in
  Ok [ {[ "account_sid" := sid ]} ].

End UsageNestedStream.
End UsageNestedStream.

Module Alerts.

Definition path (self : stream) : string := str_title false (name self).

End Alerts.

(** ** Method resolution and the framework's read loop *)

Section Streams.
Context `{PyLib} `{Framework}.

Definition path (self : instance) (stream_slice : option mapping)
    : result json :=
  match stream_shape (cls self) with
  | TwilioStreamShape => Ok (JStr (TwilioStream.path (cls self)))
  | AlertsShape => Ok (JStr (Alerts.path (cls self)))
  | TwilioNestedStreamShape => TwilioNestedStream.path stream_slice
  | DependentPhoneNumbersShape => DependentPhoneNumbers.path stream_slice
  | UsageNestedStreamShape path_name =>
      UsageNestedStream.path path_name stream_slice
  end.

Definition request_params (self : instance) (stream_state : mapping)
    (next_page_token : option mapping) : result mapping :=
  match stream_incremental (cls self) with
  | Some i =>
      IncrementalTwilioStream.request_params i (_start_date self)
        stream_state next_page_token
  | None => Ok (TwilioStream.request_params stream_state next_page_token)
  end.

(** Modelled from the spec: [Stream.get_updated_state] of the framework,
    the state interface of a stream without cursor, which keeps no state. *)
Definition Stream_get_updated_state (current_stream_state : mapping)
    (latest_record : json) : result mapping := Ok ∅.

Definition get_updated_state (self : instance)
    (current_stream_state : mapping) (latest_record : json)
    : result mapping :=
  match stream_incremental (cls self) with
  | Some i =>
      IncrementalTwilioStream.get_updated_state i current_stream_state
        latest_record
  | None => Stream_get_updated_state current_stream_state latest_record
  end.

(** [self.cursor_field]; the framework's default is the empty list. *)
Definition instance_cursor_field (self : instance) : json :=
  match stream_incremental (cls self) with
  | Some i => JStr (cursor_field i)
  | None => JArr []
  end.

(** Modelled from the spec: the pagination loop of [HttpStream.read_records]
    (fetch a page, parse its records, compute the next token, continue
    while there is one), from the token of the page to fetch. *)
Fixpoint read_pages (fuel : nat) (self : instance) (stream_state : mapping)
    (stream_slice : option mapping) (next_page_token : option mapping)
    : result (list json) :=
  match fuel with
  | O => Err OutOfFuel
  | S fuel' =>
      let/r p := path self stream_slice in
      let/r params := request_params self stream_state next_page_token in
      let/r response :=
        send_request (url_base (cls self)) p params (authenticator self) in
      let/r records := TwilioStream.parse_response (cls self) response in
      let/r token := TwilioStream.next_page_token response in
      if truthy_mapping token then
        let/r rest := read_pages fuel' self stream_state stream_slice token in
        Ok (records ++ rest)%list
      else Ok records
  end.

(** Modelled from the spec: [HttpStream.read_records]; a call without
    [stream_state] starts from the empty state. *)
Definition read_records (fuel : nat) (self : instance)
    (sync_mode : SyncMode.t) (cursor_field : json)
    (stream_slice : option mapping) (stream_state : option mapping)
    : result (list json) :=
  read_pages fuel self (default ∅ stream_state) stream_slice None.

(** What one parent record yields, by the class that provides
    [stream_slices]. *)
Definition slices_of_item (self : stream) (item : json)
    : result (list (option mapping)) :=
  let/r slices :=
    match stream_shape self with
    | TwilioNestedStreamShape => TwilioNestedStream.slices_of_item self item
    | DependentPhoneNumbersShape => DependentPhoneNumbers.slices_of_item item
    | UsageNestedStreamShape _ => UsageNestedStream.slices_of_item item
    | TwilioStreamShape | AlertsShape => Ok []
    end in
  Ok (Some <$> slices).

(** [self.parent_stream(authenticator=self.authenticator)] *)
Definition parent_instance (parent : stream) (auth : Auth) : instance :=
  mkInstance parent auth None.

(** [stream_slices] of a class, with the credentials of the object. A
    stream without parent has the framework's single slice [None]
    (modelled from the spec); a nested class without [parent_stream] is
    abstract. The keyword arguments are accepted and not read. *)
Fixpoint class_stream_slices (fuel : nat) (self : stream) (auth : Auth)
    (sync_mode : SyncMode.t) (cursor_field : json)
    (stream_state : option mapping) {struct self}
    : result (list (option mapping)) :=
  match stream_shape self with
  | TwilioStreamShape | AlertsShape => Ok [None]
  | _ =>
      match parent_stream self with
      | None => Err TypeError
      | Some parent =>
          let stream_instance := parent_instance parent auth in
          let/r stream_slices :=
            class_stream_slices fuel parent auth SyncMode.full_refresh
              (instance_cursor_field stream_instance) None in
          flat_mapM (fun stream_slice =>
            let/r items :=
              read_records fuel stream_instance SyncMode.full_refresh
                (instance_cursor_field stream_instance) stream_slice None in
            flat_mapM (slices_of_item self) items) stream_slices
      end
  end.

Definition stream_slices (fuel : nat) (self : instance)
    (sync_mode : SyncMode.t) (cursor_field : json)
    (stream_state : option mapping) : result (list (option mapping)) :=
  class_stream_slices fuel (cls self) (authenticator self) sync_mode
    cursor_field stream_state.

End Streams.

(** ** The concrete streams

    [name] is the class name in snake case, as the framework derives it;
    [data_field] defaults to it and [subresource_uri_key] to [data_field]. *)

Definition api_2010 : string := "https://api.twilio.com/2010-04-01/".
Definition api_root : string := "https://api.twilio.com".
Definition default_template : string := "%Y-%m-%dT%H:%M:%SZ".

Definition nested (name data key : string) (parent : stream) : stream :=
  mkStream name api_root data key [] TwilioNestedStreamShape None (Some parent).

Definition nested_incremental (name cursor filter : string) (parent : stream)
    : stream :=
  mkStream name api_root name name [] TwilioNestedStreamShape
    (Some (mkIncremental cursor filter default_template)) (Some parent).

Definition Accounts : stream :=
  mkStream "accounts" api_2010 "accounts" "accounts" [] TwilioStreamShape
    None None.

Definition Addresses : stream :=
  nested "addresses" "addresses" "addresses" Accounts.

Definition DependentPhoneNumbers_class : stream :=
  mkStream "dependent_phone_numbers" api_2010 "dependent_phone_numbers"
    "dependent_phone_numbers" [] DependentPhoneNumbersShape None
    (Some Addresses).

Definition Applications : stream :=
  nested "applications" "applications" "applications" Accounts.

Definition AvailablePhoneNumberCountries : stream :=
  nested "available_phone_number_countries" "countries"
    "available_phone_numbers" Accounts.

Definition AvailablePhoneNumbersLocal : stream :=
  nested "available_phone_numbers_local" "available_phone_numbers" "local"
    AvailablePhoneNumberCountries.

Definition AvailablePhoneNumbersMobile : stream :=
  nested "available_phone_numbers_mobile" "available_phone_numbers" "mobile"
    AvailablePhoneNumberCountries.

Definition AvailablePhoneNumbersTollFree : stream :=
  nested "available_phone_numbers_toll_free" "available_phone_numbers"
    "toll_free" AvailablePhoneNumberCountries.

Definition IncomingPhoneNumbers : stream :=
  nested "incoming_phone_numbers" "incoming_phone_numbers"
    "incoming_phone_numbers" Accounts.

Definition Keys : stream := nested "keys" "keys" "keys" Accounts.

Definition Calls : stream :=
  nested_incremental "calls" "end_time" "EndTime>" Accounts.

Definition Conferences : stream :=
  nested_incremental "conferences" "date_updated" "DateUpdated>=" Accounts.

Definition ConferenceParticipants : stream :=
  nested "conference_participants" "participants" "participants" Conferences.

Definition OutgoingCallerIds : stream :=
  nested "outgoing_caller_ids" "outgoing_caller_ids" "outgoing_caller_ids"
    Accounts.

Definition Recordings : stream :=
  nested_incremental "recordings" "date_created" "DateCreated>" Accounts.

Definition Transcriptions : stream :=
  nested "transcriptions" "transcriptions" "transcriptions" Accounts.

Definition Queues : stream := nested "queues" "queues" "queues" Accounts.

Definition Messages : stream :=
  nested_incremental "messages" "date_sent" "DateSent>" Accounts.

Definition MessageMedia : stream :=
  mkStream "message_media" api_root "media_list" "media"
    [("num_media", "0")] TwilioNestedStreamShape
    (Some (mkIncremental "date_updated" "StartTime>=" default_template))
    (Some Messages).

Definition UsageRecords : stream :=
  mkStream "usage_records" api_2010 "usage_records" "usage_records" []
    (UsageNestedStreamShape "Records")
    (Some (mkIncremental "end_date" "EndDate" "%Y-%m-%d")) (Some Accounts).

Definition UsageTriggers : stream :=
  mkStream "usage_triggers" api_2010 "usage_triggers" "triggers" []
    (UsageNestedStreamShape "Triggers") None (Some Accounts).

Definition Alerts_class : stream :=
  mkStream "alerts" "https://monitor.twilio.com/v1/" "alerts" "alerts" []
    AlertsShape
    (Some (mkIncremental "date_updated" "StartDate" default_template)) None.

(** ** A library instance for evaluation

    Timestamps of the two shapes the connector formats, [%Y-%m-%d] and
    [%Y-%m-%dT%H:%M:%SZ]; text is taken to be valid UTF-8. *)

Module IsoLib.

Record iso_datetime : Type := mkDateTime {
  year : Z; month : Z; day : Z; hour : Z; minute : Z; second : Z
}.

Definition digit (z : Z) : ascii := ascii_of_N (48 + Z.to_N (z mod 10)).

Definition pad2 (z : Z) : string :=
  String (digit (z / 10)) (String (digit z) "").

Definition pad4 (z : Z) : string :=
  String (digit (z / 1000)) (String (digit (z / 100)) (pad2 z)).

Fixpoint digits_acc (acc : Z) (s : string) : option Z :=
  match s with
  | EmptyString => Some acc
  | String c s' =>
      if is_digit c then digits_acc (10 * acc + Z.of_N (code c - 48)) s'
      else None
  end.

Definition number (start len : nat) (s : string) : option Z :=
  digits_acc 0 (substring start len s).

Definition parse_iso (s : string) : option iso_datetime :=
  let date :=
    if String.eqb (substring 4 1 s) "-" && String.eqb (substring 7 1 s) "-"
    then
      y ← number 0 4 s; m ← number 5 2 s; d ← number 8 2 s; Some (y, m, d)
    else None in
  '(y, m, d) ← date;
  if (String.length s =? 10)%nat then Some (mkDateTime y m d 0 0 0)
  else if (String.length s =? 20)%nat
          && String.eqb (substring 10 1 s) "T"
          && String.eqb (substring 13 1 s) ":"
          && String.eqb (substring 16 1 s) ":"
          && String.eqb (substring 19 1 s) "Z"
  then
    h ← number 11 2 s; mi ← number 14 2 s; sec ← number 17 2 s;
    Some (mkDateTime y m d h mi sec)
  else None.

Definition parse (strict : bool) (v : json) : result iso_datetime :=
  match v with
  | JStr s => match parse_iso s with Some dt => Ok dt | None => Err ParserError end
  | _ => Err TypeError
  end.

Fixpoint format (dt : iso_datetime) (template : string) : string :=
  match template with
  | String "%" (String d rest) =>
      (if ascii_eqb d "Y" then pad4 (year dt)
       else if ascii_eqb d "m" then pad2 (month dt)
       else if ascii_eqb d "d" then pad2 (day dt)
       else if ascii_eqb d "H" then pad2 (hour dt)
       else if ascii_eqb d "M" then pad2 (minute dt)
       else if ascii_eqb d "S" then pad2 (second dt)
       else String "%" (String d "")) ++ format dt rest
  | String c rest => String c (format dt rest)
  | EmptyString => EmptyString
  end.

Definition format_other (v : json) : string :=
  match v with
  | JNull => "None"
  | JBool true => "True"
  | JBool false => "False"
  | _ => ""
  end.

#[export] Instance lib : PyLib := {|
  datetime := iso_datetime;
  pendulum_parse := parse;
  strftime := format;
  decode_utf8_replace := fun s => s;
  nfkc_rejects := fun _ => false;
  py_format_other := format_other
|}.

End IsoLib.

Definition calls_page : json :=
  JObj [("calls", JArr [JObj [("sid", JStr "CA1")]; JObj [("sid", JStr "CA2")]]);
        ("next_page_uri",
         JStr "/2010-04-01/Accounts/AC1/Calls.json?PageToken=abc&Page=2")].

(** ** Vocabulary of the statements *)

(** No character of [bad] occurs in [s]. *)
Definition str_free (bad s : string) : bool :=
  str_forall (fun c => negb (str_mem c bad)) s.

Definition url_safe (s : string) : bool := str_free urllib.unsafe_url_bytes s.

(** The path of a relative URL: no scheme, no network location, and none of
    the characters that end a path. *)
Definition relative_url_path (p : string) : bool :=
  url_safe p && str_free "?#:" p
  && match str_strip_prefix "//" p with Some _ => false | None => true end.

(** A key and a value that need no escaping in a query string. *)
Definition plain_key (k : string) : bool := url_safe k && str_free "&=#%+" k.

Definition plain_value (v : string) : bool :=
  url_safe v && str_free "&#%+" v && negb (String.eqb v "").

Definition plain_pair (kv : string * string) : bool :=
  plain_key kv.1 && plain_value kv.2.

(** [k1=v1&k2=v2&...] *)
Definition query_string (kvs : list (string * string)) : string :=
  String.concat "&" (map (fun kv => kv.1 ++ String "=" kv.2) kvs).

(** The error rule in the words of the specification: a continuation URL
    whose query string the strict parser rejects makes [next_page_token]
    raise. *)
Definition malformed_continuation `{PyLib} (doc : json) : Prop :=
  exists uri parts e,
    py_get doc "next_page_uri" = Ok (JStr uri)
    /\ urllib.urlparse uri = Ok parts
    /\ urllib.parse_qsl_with false true (urllib.query parts) = Err e.

Definition claimed_malformed_query_error `{PyLib} : Prop :=
  forall doc, malformed_continuation doc ->
    exists e, TwilioStream.next_page_token doc = Err e.

Definition truncated_page : json :=
  JObj [("calls", JArr []);
        ("next_page_uri",
         JStr "/2010-04-01/Accounts/AC1/Calls.json?PageToken")].

(** [max] of two [str]: the second when it is greater than the first. *)
Definition str_max (a b : string) : string := if String.ltb a b then b else a.

(** The watermark of a state: the [str] under the cursor field, the empty
    [str] (below every other) when there is none. *)
Definition watermark (cursor : string) (state : mapping) : string :=
  match state !! cursor with
  | Some (JStr w) => w
  | _ => ""
  end.

(** A state holds no watermark or a [str]. *)
Definition typed_state (cursor : string) (state : mapping) : bool :=
  match state !! cursor with
  | None | Some (JStr _) => true
  | Some _ => false
  end.

(** The greatest of a watermark and of the formatted cursor values that
    follow it. *)
Definition max_watermark (prior : string) (values : list string) : string :=
  fold_left (fun m b => str_max b m) values prior.

Section StateVocabulary.
Context `{PyLib}.

(** The cursor value of a record, formatted to the time template of the
    stream. *)
Definition latest_benchmark (self : incremental) (latest_record : json)
    : result string :=
  let/r cursor_value := py_getitem latest_record (cursor_field self) in
  let/r parsed := pendulum_parse false cursor_value in
  Ok (strftime parsed (time_filter_template self)).

(** The state after a sequence of records, [get_updated_state] being called
    after each of them. *)
Fixpoint fold_updated_state (self : incremental) (state : mapping)
    (records : list json) : result mapping :=
  match records with
  | [] => Ok state
  | r :: rest =>
      let/r state' := IncrementalTwilioStream.get_updated_state self state r in
      fold_updated_state self state' rest
  end.

End StateVocabulary.

(** ** Sample data *)

(** The attributes that [Calls] inherits and overrides. *)
Definition calls_incremental : incremental :=
  mkIncremental "end_time" "EndTime>" default_template.

Definition call_ended (t : string) : json :=
  JObj [("sid", JStr "CA1"); ("end_time", JStr t)].

(** The value of [subresource_uris] in the items of a record, the empty
    object by default. *)
Definition subresource_uris (o : list (string * json)) : json :=
  match assoc "subresource_uris" o with Some v => v | None => JObj [] end.

(** One entry of [media_exist_validation] holds on a record: the field is
    there, its value is true and differs from the sentinel. *)
Definition check_passes (o : list (string * json)) (check : string * string)
    : bool :=
  match assoc check.1 o with
  | Some x => truthy x && py_ne_str x check.2
  | None => false
  end.

(** The nested slice rule in the words of the specification: an entry
    fails when its field is absent or equal to the sentinel; a record with
    the locator key and no failing entry yields the slice of the locator. *)
Definition check_fails_as_claimed (o : list (string * json))
    (check : string * string) : Prop :=
  assoc check.1 o = None \/ assoc check.1 o = Some (JStr check.2).

Definition claimed_nested_slice_rule : Prop :=
  forall (self : stream) (o uris : list (string * json)),
    subresource_uris o = JObj uris ->
    (assoc (subresource_uri_key self) uris = None ->
     TwilioNestedStream.slices_of_item self (JObj o) = Ok [])
    /\ (forall v,
         assoc (subresource_uri_key self) uris = Some v ->
         Exists (check_fails_as_claimed o) (media_exist_validation self) ->
         TwilioNestedStream.slices_of_item self (JObj o) = Ok [])
    /\ (forall v,
         assoc (subresource_uri_key self) uris = Some v ->
         ~ Exists (check_fails_as_claimed o) (media_exist_validation self) ->
         TwilioNestedStream.slices_of_item self (JObj o)
         = Ok [ {[ "subresource_uri" := v ]} ]).

Definition message (sid num_media : string) (media : json) : list (string * json) :=
  [("sid", JStr sid); ("num_media", JStr num_media);
   ("subresource_uris", JObj [("media", media)])].

Definition account (sid : string) : list (string * json) :=
  [("sid", JStr sid);
   ("subresource_uris",
    JObj [("messages", JStr ("/2010-04-01/Accounts/" ++ sid ++ "/Messages.json"))])].

(** A stream class read as a plain [TwilioStream]: without the attributes
    of [IncrementalTwilioStream]. *)
Definition plain (s : stream) : stream :=
  mkStream (name s) (url_base s) (data_field s) (subresource_uri_key s)
    (media_exist_validation s) (stream_shape s) None (parent_stream s).

(** The classes that take their slices from a parent. *)
Definition is_nested (sh : shape) : bool :=
  match sh with
  | TwilioStreamShape | AlertsShape => false
  | _ => true
  end.

(** A small account: two pages of accounts, two messages under the first
    account, and none when the request carries the filter of [Messages]. *)
Module SampleApi.

Definition media_uri (sid : string) : json :=
  JStr ("/2010-04-01/Accounts/AC1/Messages/" ++ sid ++ "/Media.json").

Definition send (url_base : string) (path : json) (params : mapping)
    (auth : unit) : result json :=
  match path with
  | JStr p =>
      if String.eqb p "Accounts.json" then
        match params !! "Page" with
        | None =>
            Ok (JObj [("accounts", JArr [JObj (account "AC1")]);
                      ("next_page_uri",
                       JStr "/2010-04-01/Accounts.json?Page=1&PageToken=PAAC1")])
        | Some _ =>
            Ok (JObj [("accounts", JArr [JObj (account "AC2")]);
                      ("next_page_uri", JNull)])
        end
      else if String.eqb p "/2010-04-01/Accounts/AC1/Messages.json" then
        match params !! "DateSent>" with
        | None =>
            Ok (JObj [("messages",
                       JArr [JObj (message "SM1" "0" (media_uri "SM1"));
                             JObj (message "SM2" "2" (media_uri "SM2"))])])
        | Some _ => Ok (JObj [("messages", JArr [])])
        end
      else if String.eqb p "/2010-04-01/Accounts/AC2/Messages.json" then
        Ok (JObj [("messages", JArr [])])
      else Err HTTPError
  | _ => Err TypeError
  end.

#[export] Instance api : Framework := {| Auth := unit; send_request := send |}.

End SampleApi.

(** ** Vocabulary of the further properties *)

(** A value of a query field that needs no escaping; it may be empty and
    may hold plus signs. *)
Definition loose_value (v : string) : bool :=
  url_safe v && str_free "&#%" v.

Definition loose_pair (kv : string * string) : bool :=
  plain_key kv.1 && loose_value kv.2.

(** What the lenient parser keeps of unescaped fields: those with a value,
    every plus sign of the value read as a space. *)
Definition kept_pairs (fields : list (string * string))
    : list (string * string) :=
  map (fun kv => (kv.1, str_replace "+" " " kv.2))
    (filter (fun kv => negb (String.eqb kv.2 "")) fields).

(** A host name: ASCII, without delimiter and without bracket. *)
Definition plain_host (h : string) : bool :=
  url_safe h && str_free "/?#[]" h && str_forall is_ascii h.

(** An absolute path, or none. *)
Definition absolute_path (p : string) : bool :=
  url_safe p && str_free "?#" p
  && match p with
     | EmptyString => true
     | String c _ => ascii_eqb c "/"
     end.

Definition valid_scheme (s : string) : bool :=
  negb (String.eqb s "") && str_forall urllib.scheme_char s.

(** The formatted cursor value of a record, the empty [str] where there is
    none. *)
Definition benchmark_of `{PyLib} (self : incremental) (r : json) : string :=
  match latest_benchmark self r with
  | Ok b => b
  | Err _ => ""
  end.

(** The value under the locator key of [subresource_uris], [None] where
    there is none. *)
Definition locator (self : stream) (o : list (string * json)) : json :=
  match subresource_uris o with
  | JObj uris =>
      match assoc (subresource_uri_key self) uris with
      | Some v => v
      | None => JNull
      end
  | _ => JNull
  end.

(** A parent record yields a slice: its locator is true and every entry of
    [media_exist_validation] holds. *)
Definition qualifies (self : stream) (o : list (string * json)) : bool :=
  truthy (locator self o)
  && forallb (check_passes o) (media_exist_validation self).

(** [subresource_uris] is missing from the record or is an object. *)
Definition well_shaped (o : list (string * json)) : bool :=
  match subresource_uris o with
  | JObj _ => true
  | _ => false
  end.

Definition locator_slice (self : stream) (o : list (string * json))
    : option mapping :=
  Some {[ "subresource_uri" := locator self o ]}.

Definition field (k : string) (o : list (string * json)) : json :=
  match assoc k o with Some v => v | None => JNull end.

Definition has_field (k : string) (o : list (string * json)) : bool :=
  match assoc k o with Some _ => true | None => false end.

(** The chain of parents of a class ends in a stream without parent. *)
Fixpoint resolvable (self : stream) : bool :=
  match stream_shape self with
  | TwilioStreamShape | AlertsShape => true
  | _ =>
      match parent_stream self with
      | Some parent => resolvable parent
      | None => false
      end
  end.

Fixpoint depth (self : stream) : nat :=
  match parent_stream self with
  | Some parent => S (depth parent)
  | None => O
  end.

(** A transport that fails on every request. *)
Module DownApi.

Definition send (url_base : string) (path : json) (params : mapping)
    (auth : unit) : result json := Err HTTPError.

Definition api : Framework := {| Auth := unit; send_request := send |}.

End DownApi.

(** One account with one address. *)
Module SampleAddresses.

Definition address : list (string * json) :=
  [("sid", JStr "AD1"); ("account_sid", JStr "AC1");
   ("subresource_uris",
    JObj [("dependent_phone_numbers",
           JStr "/2010-04-01/Accounts/AC1/Addresses/AD1/DependentPhoneNumbers.json")])].

Definition owner : list (string * json) :=
  [("sid", JStr "AC1");
   ("subresource_uris",
    JObj [("addresses", JStr "/2010-04-01/Accounts/AC1/Addresses.json")])].

Definition send (url_base : string) (path : json) (params : mapping)
    (auth : unit) : result json :=
  match path with
  | JStr p =>
      if String.eqb p "Accounts.json" then
        Ok (JObj [("accounts", JArr [JObj owner])])
      else if String.eqb p "/2010-04-01/Accounts/AC1/Addresses.json" then
        Ok (JObj [("addresses", JArr [JObj address])])
      else Err HTTPError
  | _ => Err TypeError
  end.

Definition api : Framework := {| Auth := unit; send_request := send |}.

End SampleAddresses.

(** A nested class under [Messages] with the given validation entries. *)
Definition media_checked (checks : list (string * string)) : stream :=
  mkStream "message_media" api_root "media_list" "media" checks
    TwilioNestedStreamShape None (Some Messages).

(** The stream without parent at the end of the chain of parents. *)
Fixpoint root (self : stream) : stream :=
  match parent_stream self with
  | Some parent => root parent
  | None => self
  end.

(** The classes of the connector. *)
Definition all_streams : list stream :=
  [Accounts; Addresses; DependentPhoneNumbers_class; Applications;
   AvailablePhoneNumberCountries; AvailablePhoneNumbersLocal;
   AvailablePhoneNumbersMobile; AvailablePhoneNumbersTollFree;
   IncomingPhoneNumbers; Keys; Calls; Conferences; ConferenceParticipants;
   OutgoingCallerIds; Recordings; Transcriptions; Queues; Messages;
   MessageMedia; UsageRecords; UsageTriggers; Alerts_class].

Definition filter_field_of (self : stream) : string :=
  match stream_incremental self with
  | Some i => incremental_filter_field i
  | None => ""
  end.

(** * Properties *)

(** ** Strings *)

Lemma str_mem_app c a b : str_mem c (a ++ b) = str_mem c a || str_mem c b.
Proof.
  induction a as [|x a IH]; simpl; [reflexivity|].
  rewrite IH. apply orb_assoc.
Qed.

Lemma str_cut_app_skip c a b :
  str_mem c a = false ->
  str_cut c (a ++ b) =
    match str_cut c b with Some (l, r) => Some (a ++ l, r) | None => None end.
Proof.
  induction a as [|x a IH]; simpl; intros Hm.
  - destruct (str_cut c b) as [[l r]|]; reflexivity.
  - apply orb_false_elim in Hm as [Hx Ha]. rewrite Hx, (IH Ha).
    destruct (str_cut c b) as [[l r]|]; reflexivity.
Qed.

Lemma ascii_eqb_refl c : ascii_eqb c c = true.
Proof. apply Ascii.eqb_refl. Qed.

Lemma str_cut_app c l r :
  str_mem c l = false -> str_cut c (l ++ String c r) = Some (l, r).
Proof.
  intros Hm. rewrite (str_cut_app_skip _ _ _ Hm). simpl.
  rewrite ascii_eqb_refl. f_equal. f_equal.
  clear Hm. induction l; simpl; congruence.
Qed.

Lemma str_cut_none c s : str_mem c s = false -> str_cut c s = None.
Proof.
  induction s as [|x s IH]; simpl; intros Hm; [reflexivity|].
  apply orb_false_elim in Hm as [Hx Hs]. rewrite Hx, (IH Hs). reflexivity.
Qed.

Lemma str_split_none c s : str_mem c s = false -> str_split c s = [s].
Proof.
  induction s as [|x s IH]; simpl; intros Hm; [reflexivity|].
  apply orb_false_elim in Hm as [Hx Hs]. rewrite Hx, (IH Hs). reflexivity.
Qed.

Lemma str_split_app c l r :
  str_mem c l = false -> str_split c (l ++ String c r) = l :: str_split c r.
Proof.
  induction l as [|x l IH]; simpl; intros Hm.
  - rewrite ascii_eqb_refl. reflexivity.
  - apply orb_false_elim in Hm as [Hx Hl]. rewrite Hx, (IH Hl). reflexivity.
Qed.

Lemma str_free_mem bad s c :
  str_free bad s = true -> str_mem c bad = true -> str_mem c s = false.
Proof.
  unfold str_free. induction s as [|x s IH]; simpl; intros Hf Hc; [reflexivity|].
  apply andb_prop in Hf as [Hx Hs]. rewrite (IH Hs Hc), orb_false_r.
  unfold ascii_eqb. destruct (Ascii.eqb_spec x c) as [->|]; [|reflexivity].
  rewrite Hc in Hx. discriminate.
Qed.

Lemma str_free_app bad a b :
  str_free bad (a ++ b) = str_free bad a && str_free bad b.
Proof.
  unfold str_free. induction a as [|x a IH]; simpl; [reflexivity|].
  rewrite IH. apply andb_assoc.
Qed.

Lemma str_forall_impl (p q : ascii -> bool) s :
  (forall c, p c = true -> q c = true) ->
  str_forall p s = true -> str_forall q s = true.
Proof.
  intros Hpq. induction s as [|x s IH]; simpl; [reflexivity|].
  intros Hp. apply andb_prop in Hp as [Hx Hs].
  rewrite (Hpq _ Hx), (IH Hs). reflexivity.
Qed.

Lemma str_remove_id p s :
  str_forall (fun c => negb (p c)) s = true -> str_remove p s = s.
Proof.
  induction s as [|x s IH]; simpl; [reflexivity|].
  intros Hf. apply andb_prop in Hf as [Hx Hs].
  apply negb_true_iff in Hx. rewrite Hx, (IH Hs). reflexivity.
Qed.

Lemma str_replace_id a b s : str_mem a s = false -> str_replace a b s = s.
Proof.
  induction s as [|x s IH]; simpl; [reflexivity|].
  intros Hm. apply orb_false_elim in Hm as [Hx Hs].
  rewrite Hx, (IH Hs). reflexivity.
Qed.

Lemma str_forall_app p a b :
  str_forall p (a ++ b) = str_forall p a && str_forall p b.
Proof.
  induction a as [|x a IH]; simpl; [reflexivity|].
  rewrite IH. apply andb_assoc.
Qed.

Lemma append_nonempty a c b : String.eqb (a ++ String c b) "" = false.
Proof. destruct a; reflexivity. Qed.

(** ** [urllib.parse] on a relative URL *)

Section UrllibFacts.
Context `{PyLib}.

Lemma url_safe_remove s :
  url_safe s = true -> str_remove urllib.unsafe_url_byte s = s.
Proof. intros Hs. apply str_remove_id. exact Hs. Qed.

Lemma no_scheme p q :
  str_mem ":" p = false ->
  match str_cut ":" (p ++ String "?" q) with
  | Some (pre, rest) =>
      if negb (String.eqb pre "") && str_forall urllib.scheme_char pre
      then (str_lower pre, rest) else ("", p ++ String "?" q)
  | None => ("", p ++ String "?" q)
  end = ("", p ++ String "?" q).
Proof.
  intros Hp. rewrite (str_cut_app_skip _ _ _ Hp). simpl.
  destruct (str_cut ":" q) as [[l r]|]; [|reflexivity].
  rewrite str_forall_app. simpl. rewrite andb_false_r, andb_false_r.
  reflexivity.
Qed.

Lemma no_netloc p q :
  str_strip_prefix "//" p = None ->
  str_strip_prefix "//" (p ++ String "?" q) = None.
Proof.
  destruct p as [|a [|b p]]; cbn [str_strip_prefix String.append];
    try reflexivity.
  - destruct (ascii_eqb "/" a); reflexivity.
  - destruct (ascii_eqb "/" a); [|reflexivity].
    destruct (ascii_eqb "/" b); [discriminate|reflexivity].
Qed.

Lemma urlsplit_relative p q :
  relative_url_path p = true ->
  url_safe q = true -> str_mem "#" q = false ->
  urllib.urlsplit (p ++ String "?" q) = Ok (urllib.mkSplit "" "" p q "").
Proof.
  unfold relative_url_path. intros Hp Hq Hfrag.
  apply andb_prop in Hp as [Hp Hnet]. apply andb_prop in Hp as [Hsafe Hfree].
  assert (Hcolon : str_mem ":" p = false) by (eapply str_free_mem; eauto).
  assert (Hhash : str_mem "#" p = false) by (eapply str_free_mem; eauto).
  assert (Hquest : str_mem "?" p = false) by (eapply str_free_mem; eauto).
  unfold urllib.urlsplit.
  rewrite url_safe_remove.
  2:{ unfold url_safe in *. rewrite str_free_app, Hsafe. simpl.
      unfold str_free in Hq. simpl. exact Hq. }
  rewrite (no_scheme p q Hcolon).
  rewrite no_netloc by (destruct (str_strip_prefix "//" p); [discriminate|reflexivity]).
  simpl bind.
  rewrite (str_cut_none "#") by (rewrite str_mem_app; simpl; rewrite Hhash, Hfrag; reflexivity).
  rewrite (str_cut_app "?" p q Hquest).
  reflexivity.
Qed.

Lemma unquote_plain s : str_mem "%" s = false -> urllib.unquote s = s.
Proof. intros Hs. unfold urllib.unquote. rewrite Hs. reflexivity. Qed.

Lemma plain_key_mem k c :
  plain_key k = true -> str_mem c "&=#%+" = true -> str_mem c k = false.
Proof.
  unfold plain_key. intros Hk Hc. apply andb_prop in Hk as [_ Hk].
  eapply str_free_mem; eauto.
Qed.

Lemma plain_value_mem v c :
  plain_value v = true -> str_mem c "&#%+" = true -> str_mem c v = false.
Proof.
  unfold plain_value. intros Hv Hc.
  apply andb_prop in Hv as [Hv _]. apply andb_prop in Hv as [_ Hv].
  eapply str_free_mem; eauto.
Qed.

Lemma qs_field_plain k v :
  plain_key k = true -> plain_value v = true ->
  urllib.qs_field false false (k ++ String "=" v) = Ok [(k, v)].
Proof.
  intros Hk Hv. unfold urllib.qs_field.
  rewrite append_nonempty. cbn [andb].
  rewrite str_cut_app by (apply plain_key_mem; auto).
  cbn [bind].
  assert (Hne : negb (String.eqb v "") = true).
  { unfold plain_value in Hv. apply andb_prop in Hv as [_ Hv]. exact Hv. }
  rewrite Hne. cbn [orb].
  rewrite !str_replace_id
    by (first [solve [apply plain_key_mem; auto]
              |solve [apply plain_value_mem; auto]]).
  rewrite !unquote_plain
    by (first [solve [apply plain_key_mem; auto]
              |solve [apply plain_value_mem; auto]]).
  reflexivity.
Qed.

Lemma field_mem c k v :
  plain_key k = true -> plain_value v = true ->
  str_mem c "&#%+" = true -> ascii_eqb "=" c = false ->
  str_mem c (k ++ String "=" v) = false.
Proof.
  intros Hk Hv Hc Heq. rewrite str_mem_app. cbn [str_mem].
  rewrite Heq, (plain_value_mem v c Hv Hc). cbn [orb].
  rewrite orb_false_r. unfold plain_key in Hk.
  apply andb_prop in Hk as [_ Hk]. eapply str_free_mem; [exact Hk|].
  revert Hc. cbn [str_mem]. intros Hc.
  apply orb_prop in Hc as [->|Hc]; [reflexivity|].
  rewrite Hc. rewrite !orb_true_r. reflexivity.
Qed.

Lemma parse_qsl_query_string kvs :
  forallb plain_pair kvs = true ->
  urllib.parse_qsl (query_string kvs) = Ok kvs.
Proof.
  unfold urllib.parse_qsl, urllib.parse_qsl_with, query_string.
  induction kvs as [|[k v] kvs IH]; [reflexivity|].
  cbn [forallb map]. intros Hall. apply andb_prop in Hall as [Hkv Hall].
  unfold plain_pair in Hkv. cbn [fst snd] in *.
  apply andb_prop in Hkv as [Hk Hv].
  assert (Hamp : str_mem "&" (k ++ String "=" v) = false)
    by (apply field_mem; auto).
  destruct kvs as [|kv' kvs].
  - cbn [map String.concat]. rewrite str_split_none by exact Hamp.
    cbn [urllib.qs_fields]. rewrite qs_field_plain by assumption.
    reflexivity.
  - specialize (IH Hall). cbn [map] in *.
    change (String.concat "&" ((k ++ String "=" v) :: ?x :: ?l))
      with ((k ++ String "=" v) ++ String "&" (String.concat "&" (x :: l))).
    rewrite str_split_app by exact Hamp.
    cbn [urllib.qs_fields]. rewrite qs_field_plain by assumption.
    rewrite IH. reflexivity.
Qed.

Lemma query_string_safe kvs :
  forallb plain_pair kvs = true ->
  url_safe (query_string kvs) = true /\ str_mem "#" (query_string kvs) = false.
Proof.
  unfold query_string.
  induction kvs as [|[k v] kvs IH]; [split; reflexivity|].
  cbn [forallb map]. intros Hall. apply andb_prop in Hall as [Hkv Hall].
  unfold plain_pair in Hkv. cbn [fst snd] in *.
  apply andb_prop in Hkv as [Hk Hv].
  assert (Hfield : url_safe (k ++ String "=" v) = true).
  { unfold plain_key in Hk. apply andb_prop in Hk as [Hk _].
    unfold plain_value in Hv. apply andb_prop in Hv as [Hv _].
    apply andb_prop in Hv as [Hv _].
    unfold url_safe in *. rewrite str_free_app, Hk. exact Hv. }
  assert (Hhash : str_mem "#" (k ++ String "=" v) = false)
    by (apply field_mem; auto).
  destruct kvs as [|kv' kvs]; [split; assumption|].
  destruct (IH Hall) as [IHs IHh]. cbn [map] in *.
  change (String.concat "&" ((k ++ String "=" v) :: ?x :: ?l))
    with ((k ++ String "=" v) ++ String "&" (String.concat "&" (x :: l))).
  split.
  - unfold url_safe in *. rewrite str_free_app, Hfield. exact IHs.
  - rewrite str_mem_app, Hhash. exact IHh.
Qed.

Lemma next_page_token_parsed o uri parts pairs :
  assoc "next_page_uri" o = Some (JStr uri) ->
  uri <> "" ->
  urllib.urlparse uri = Ok parts ->
  urllib.parse_qsl (urllib.query parts) = Ok pairs ->
  TwilioStream.next_page_token (JObj o) = Ok (Some (py_dict pairs)).
Proof.
  intros Ho Hne Hparse Hpairs.
  unfold TwilioStream.next_page_token, py_get, py_get_default.
  rewrite Ho. cbn [bind truthy].
  destruct (String.eqb_spec uri "") as [->|_]; [congruence|]. cbn [negb].
  unfold urllib.urlparse_value. rewrite Hparse. cbn [bind].
  rewrite Hpairs. reflexivity.
Qed.

Lemma next_page_token_relative o p kvs :
  assoc "next_page_uri" o = Some (JStr (p ++ String "?" (query_string kvs))) ->
  relative_url_path p = true ->
  forallb plain_pair kvs = true ->
  TwilioStream.next_page_token (JObj o) = Ok (Some (py_dict kvs)).
Proof.
  intros Ho Hp Hkvs. destruct (query_string_safe kvs Hkvs) as [Hsafe Hhash].
  eapply next_page_token_parsed; [exact Ho| | |].
  - intros E. apply (f_equal (fun s => String.eqb s "")) in E.
    rewrite append_nonempty in E. discriminate E.
  - apply (urlsplit_relative p _ Hp Hsafe Hhash).
  - apply (parse_qsl_query_string kvs Hkvs).
Qed.

Lemma request_params_token (stream_state token : mapping) :
  token <> ∅ ->
  TwilioStream.request_params stream_state (Some token)
  = token ∪ {[ "PageSize" := JNum 100 ]}.
Proof.
  intros Hne. unfold TwilioStream.request_params, truthy_mapping.
  rewrite bool_decide_false by exact Hne. reflexivity.
Qed.

End UrllibFacts.

(** ** [dict] of a list of pairs *)

Lemma py_dict_list_to_map l :
  py_dict l = list_to_map (reverse (map (fun kv => (kv.1, JStr kv.2)) l)).
Proof.
  unfold py_dict.
  assert (Hgen : forall (m : mapping),
    fold_left (fun m kv => <[kv.1 := JStr kv.2]> m) l m
    = foldr (fun kv m => <[kv.1 := kv.2]> m) m
        (reverse (map (fun kv : string * string => (kv.1, JStr kv.2)) l))).
  { induction l as [|[k v] l IH]; intros m; [reflexivity|].
    cbn [fold_left map]. rewrite IH, reverse_cons, foldr_app. reflexivity. }
  rewrite Hgen. reflexivity.
Qed.

Lemma py_dict_lookup l k v :
  NoDup (map fst l) ->
  py_dict l !! k = Some (JStr v) <-> In (k, v) l.
Proof.
  intros Hnd. rewrite py_dict_list_to_map.
  rewrite <- elem_of_list_to_map.
  - rewrite elem_of_reverse, list_elem_of_fmap. split.
    + intros ([k' v'] & Heq & Hin). injection Heq as -> ->.
      apply list_elem_of_In. exact Hin.
    + intros Hin. exists (k, v). split; [reflexivity|].
      apply list_elem_of_In. exact Hin.
  - rewrite fmap_reverse, reverse_Permutation, <- list_fmap_compose.
    exact Hnd.
Qed.

(** ** Pagination tokens *)

(** C1. Token round trip: when [next_page_uri] is a relative URL
    [path?k1=v1&k2=v2...], [next_page_token] returns exactly the mapping of
    these pairs (with distinct keys: [k] is bound to [v] if and only if
    [k=v] is a field); and for a page token that is not empty,
    [request_params] is
    the page size [PageSize = 100] updated with every pair of the token, and
    nothing else, whatever the stream state. In general, the token is the
    [dict] of what [parse_qsl] reads in the query of the URL. *)
Theorem token_round_trip `{PyLib} :
  (forall (o : list (string * json)) (p : string)
          (kvs : list (string * string)),
      assoc "next_page_uri" o
        = Some (JStr (p ++ String "?" (query_string kvs))) ->
      relative_url_path p = true ->
      forallb plain_pair kvs = true ->
      TwilioStream.next_page_token (JObj o) = Ok (Some (py_dict kvs))
      /\ (NoDup (map fst kvs) ->
          forall k v, py_dict kvs !! k = Some (JStr v) <-> In (k, v) kvs))
  /\ (forall (stream_state token : mapping),
      token <> ∅ ->
      TwilioStream.request_params stream_state (Some token)
      = py_update {[ "PageSize" := JNum 100 ]} token
      /\ forall k,
           TwilioStream.request_params stream_state (Some token) !! k
           = match token !! k with
             | Some v => Some v
             | None => if String.eqb k "PageSize" then Some (JNum 100) else None
             end)
  /\ (forall (o : list (string * json)) (uri : string)
             (parts : urllib.SplitResult) (pairs : list (string * string)),
      assoc "next_page_uri" o = Some (JStr uri) ->
      uri <> "" ->
      urllib.urlparse uri = Ok parts ->
      urllib.parse_qsl (urllib.query parts) = Ok pairs ->
      TwilioStream.next_page_token (JObj o) = Ok (Some (py_dict pairs))).
Proof.
  split; [|split; [|apply next_page_token_parsed]].
  - intros o p kvs Ho Hp Hkvs.
    split; [apply (next_page_token_relative o p kvs Ho Hp Hkvs)|].
    intros Hnd k v. apply py_dict_lookup. exact Hnd.
  - intros stream_state token Hne.
    rewrite (request_params_token stream_state token Hne).
    split; [reflexivity|]. intros k.
    rewrite lookup_union. destruct (token !! k) as [v|] eqn:Hk.
    + destruct ({[ "PageSize" := JNum 100 ]} !! k); reflexivity.
    + rewrite left_id by apply _.
      destruct (String.eqb_spec k "PageSize") as [->|Hneq].
      * apply lookup_singleton_eq.
      * apply lookup_singleton_ne. congruence.
Qed.

Lemma token_round_trip_witness :
  let kvs := [("PageToken", "abc"); ("Page", "2")] in
  let token : mapping := <["PageToken" := JStr "abc"]> {[ "Page" := JStr "2" ]} in
  TwilioStream.next_page_token (H := IsoLib.lib) calls_page
    = Ok (Some token)
  /\ TwilioStream.request_params {[ "stale" := JNum 1 ]} (Some token)
    = <["PageSize" := JNum 100]> token.
Proof.
  intros kvs token. split.
  - change (Ok (Some token)) with (Ok (A := option mapping) (Some (py_dict kvs))).
    apply (proj1 (token_round_trip (H := IsoLib.lib)) _
             "/2010-04-01/Accounts/AC1/Calls.json" kvs);
      reflexivity.
  - destruct (proj1 (proj2 (token_round_trip (H := IsoLib.lib)))
                {[ "stale" := JNum 1 ]} token) as [Heq _].
    + apply insert_non_empty.
    + rewrite Heq. vm_compute. reflexivity.
Defined.

Section LenientQuery.
Context `{PyLib}.

Lemma qs_field_lenient f :
  exists pairs, urllib.qs_field false false f = Ok pairs.
Proof.
  unfold urllib.qs_field. destruct (String.eqb f ""); cbn [andb negb].
  - eexists; reflexivity.
  - destruct (str_cut "=" f) as [[n v]|]; cbn [bind].
    + destruct (negb (String.eqb v "") || false); eexists; reflexivity.
    + eexists; reflexivity.
Qed.

Lemma qs_fields_lenient l :
  exists pairs, urllib.qs_fields false false l = Ok pairs.
Proof.
  induction l as [|f l [rest IH]]; [eexists; reflexivity|].
  destruct (qs_field_lenient f) as [r1 Hf].
  cbn [urllib.qs_fields]. rewrite Hf, IH. eexists; reflexivity.
Qed.

Lemma qs_field_no_equals f :
  str_mem "=" f = false -> urllib.qs_field false false f = Ok [].
Proof.
  intros Hf. unfold urllib.qs_field.
  destruct (String.eqb f ""); cbn [andb negb]; [reflexivity|].
  rewrite (str_cut_none _ _ Hf). reflexivity.
Qed.

Lemma qs_fields_no_equals l :
  forallb (fun f => negb (str_mem "=" f)) l = true ->
  urllib.qs_fields false false l = Ok [].
Proof.
  induction l as [|f l IH]; [reflexivity|].
  cbn [forallb]. intros Hall. apply andb_prop in Hall as [Hf Hl].
  apply negb_true_iff in Hf.
  cbn [urllib.qs_fields]. rewrite (qs_field_no_equals f Hf), (IH Hl).
  reflexivity.
Qed.

(** C3, as amended. A continuation URL whose query string is malformed is
    not an error: for every document whose [next_page_uri] is a non-empty
    [str] that [urlparse] accepts, [next_page_token] returns the mapping of
    the pairs that the lenient [parse_qsl] reads, and when no field of the
    query string has an [=] this mapping is empty. *)
Theorem malformed_query_is_dropped
    (o : list (string * json)) (uri : string) (parts : urllib.SplitResult) :
  assoc "next_page_uri" o = Some (JStr uri) ->
  uri <> "" ->
  urllib.urlparse uri = Ok parts ->
  (exists pairs,
      urllib.parse_qsl (urllib.query parts) = Ok pairs
      /\ TwilioStream.next_page_token (JObj o) = Ok (Some (py_dict pairs)))
  /\ (forallb (fun f => negb (str_mem "=" f))
        (str_split "&" (urllib.query parts)) = true ->
      TwilioStream.next_page_token (JObj o) = Ok (Some ∅)).
Proof.
  intros Ho Hne Hparse.
  assert (Hstep : forall pairs,
            urllib.parse_qsl (urllib.query parts) = Ok pairs ->
            TwilioStream.next_page_token (JObj o) = Ok (Some (py_dict pairs)))
    by (intros pairs; apply (next_page_token_parsed o uri parts pairs Ho Hne Hparse)).
  split.
  - destruct (qs_fields_lenient (str_split "&" (urllib.query parts)))
      as [pairs Hpairs].
    exists pairs. split; [exact Hpairs|]. apply Hstep. exact Hpairs.
  - intros Hall. apply (Hstep []).
    apply qs_fields_no_equals. exact Hall.
Qed.

(** C5. A document without the record key gives no record and no error;
    with the key holding an array, [parse_response] gives the elements of
    the array in order; in general it gives what iterating over the value
    of the key gives. *)
Theorem parse_response_records (self : stream) (o : list (string * json)) :
  (assoc (data_field self) o = None ->
   TwilioStream.parse_response self (JObj o) = Ok [])
  /\ (forall records,
       assoc (data_field self) o = Some (JArr records) ->
       TwilioStream.parse_response self (JObj o) = Ok records)
  /\ (forall v,
       assoc (data_field self) o = Some v ->
       TwilioStream.parse_response self (JObj o) = py_iter v).
Proof.
  unfold TwilioStream.parse_response, py_get_default.
  split; [intros Ho|split; [intros records Ho|intros v Ho]];
    rewrite Ho; reflexivity.
Qed.

End LenientQuery.

Lemma malformed_query_not_raised :
  ~ claimed_malformed_query_error (H := IsoLib.lib).
Proof.
  intros Hclaim. destruct (Hclaim truncated_page) as [e He].
  - exists "/2010-04-01/Accounts/AC1/Calls.json?PageToken".
    eexists. exists ValueError.
    split; [reflexivity|]. split; reflexivity.
  - vm_compute in He. discriminate He.
Qed.

Lemma malformed_query_is_dropped_witness :
  TwilioStream.next_page_token (H := IsoLib.lib) truncated_page = Ok (Some ∅).
Proof.
  refine (proj2 (malformed_query_is_dropped (H := IsoLib.lib)
            [("calls", JArr []);
             ("next_page_uri",
              JStr "/2010-04-01/Accounts/AC1/Calls.json?PageToken")]
            "/2010-04-01/Accounts/AC1/Calls.json?PageToken"
            (urllib.mkSplit "" "" "/2010-04-01/Accounts/AC1/Calls.json"
               "PageToken" "")
            _ _ _) _).
  - reflexivity.
  - discriminate.
  - reflexivity.
  - reflexivity.
Defined.

Lemma parse_response_records_witness :
  TwilioStream.parse_response Calls (JObj [("next_page_uri", JNull)]) = Ok []
  /\ TwilioStream.parse_response Calls calls_page
     = Ok [JObj [("sid", JStr "CA1")]; JObj [("sid", JStr "CA2")]].
Proof.
  split.
  - apply (proj1 (parse_response_records Calls [("next_page_uri", JNull)])).
    reflexivity.
  - apply (proj1 (proj2 (parse_response_records Calls
             [("calls", JArr [JObj [("sid", JStr "CA1")];
                              JObj [("sid", JStr "CA2")]]);
              ("next_page_uri",
               JStr "/2010-04-01/Accounts/AC1/Calls.json?PageToken=abc&Page=2")]))).
    reflexivity.
Defined.

(** ** The order of watermarks *)

Lemma ascii_compare_refl c : Ascii.compare c c = Eq.
Proof. unfold Ascii.compare. apply N.compare_refl. Qed.

Lemma str_compare_refl s : String.compare s s = Eq.
Proof.
  induction s as [|c s IH]; simpl; [reflexivity|].
  rewrite ascii_compare_refl. exact IH.
Qed.

Lemma str_leb_refl s : String.leb s s = true.
Proof. unfold String.leb. rewrite str_compare_refl. reflexivity. Qed.

Lemma str_leb_trans a b c :
  String.leb a b = true -> String.leb b c = true -> String.leb a c = true.
Proof.
  unfold String.leb. revert b c.
  induction a as [|x a IH]; intros [|y b] [|z c]; simpl;
    try reflexivity; try discriminate.
  unfold Ascii.compare.
  destruct (N.compare_spec (N_of_ascii x) (N_of_ascii y)) as [Hxy|Hxy|Hxy];
    destruct (N.compare_spec (N_of_ascii y) (N_of_ascii z)) as [Hyz|Hyz|Hyz];
    try discriminate; intros Hab Hbc.
  - rewrite Hxy, Hyz, N.compare_refl. exact (IH b c Hab Hbc).
  - rewrite Hxy. apply N.compare_lt_iff in Hyz. rewrite Hyz. reflexivity.
  - rewrite <- Hyz. apply N.compare_lt_iff in Hxy. rewrite Hxy. reflexivity.
  - assert (Hxz : (N_of_ascii x < N_of_ascii z)%N) by lia.
    apply N.compare_lt_iff in Hxz. rewrite Hxz. reflexivity.
Qed.

Lemma str_leb_empty s : String.leb "" s = true.
Proof. destruct s; reflexivity. Qed.

Lemma str_ltb_empty s : String.ltb s "" = false.
Proof. destruct s; reflexivity. Qed.

Lemma str_max_l a b : String.leb a (str_max a b) = true.
Proof.
  unfold str_max, String.ltb, String.leb.
  destruct (String.compare a b) eqn:Hab;
    rewrite ?str_compare_refl, ?Hab; reflexivity.
Qed.

Lemma str_max_r a b : String.leb b (str_max a b) = true.
Proof.
  unfold str_max, String.ltb, String.leb.
  destruct (String.compare a b) eqn:Hab; rewrite ?str_compare_refl;
    try reflexivity;
    rewrite String.compare_antisym, Hab; reflexivity.
Qed.

Lemma str_max_cases a b : str_max a b = a \/ str_max a b = b.
Proof. unfold str_max. destruct (String.ltb a b); auto. Qed.

Lemma str_max_empty a : str_max a "" = a.
Proof. unfold str_max. rewrite str_ltb_empty. reflexivity. Qed.

Lemma max_watermark_bounds prior values :
  let m := max_watermark prior values in
  String.leb prior m = true
  /\ Forall (fun b => String.leb b m = true) values
  /\ In m (prior :: values).
Proof.
  unfold max_watermark. revert prior.
  induction values as [|b values IH]; intros prior; cbn [fold_left].
  - split; [apply str_leb_refl|]. split; [constructor|left; reflexivity].
  - destruct (IH (str_max b prior)) as (Hp & Hall & Hin).
    split; [|split].
    + eapply str_leb_trans; [apply str_max_r|exact Hp].
    + constructor; [|exact Hall].
      eapply str_leb_trans; [apply str_max_l|exact Hp].
    + destruct Hin as [Hin|Hin]; [|right; right; exact Hin].
      rewrite <- Hin.
      destruct (str_max_cases b prior) as [->| ->];
        [right; left|left]; reflexivity.
Qed.

Lemma max_watermark_unique prior values m :
  String.leb prior m = true ->
  Forall (fun b => String.leb b m = true) values ->
  In m (prior :: values) ->
  m = max_watermark prior values.
Proof.
  intros Hp Hall Hin.
  destruct (max_watermark_bounds prior values) as (Hp' & Hall' & Hin').
  apply String.leb_antisym.
  - destruct Hin as [<-|Hin]; [exact Hp'|].
    rewrite Forall_forall in Hall'. apply Hall'.
    apply list_elem_of_In. exact Hin.
  - destruct Hin' as [<-|Hin']; [exact Hp|].
    rewrite Forall_forall in Hall. apply Hall.
    apply list_elem_of_In. exact Hin'.
Qed.

Lemma max_watermark_perm prior values values' :
  Permutation values values' ->
  max_watermark prior values = max_watermark prior values'.
Proof.
  intros Hperm.
  destruct (max_watermark_bounds prior values) as (Hp & Hall & Hin).
  apply max_watermark_unique; [exact Hp| |].
  - rewrite <- Hperm. exact Hall.
  - destruct Hin as [Hin|Hin]; [left; exact Hin|right].
    apply list_elem_of_In. rewrite <- Hperm. apply list_elem_of_In. exact Hin.
Qed.

(** ** Incremental state *)

Section IncrementalState.
Context `{PyLib}.

Lemma watermark_singleton cursor w :
  watermark cursor {[ cursor := JStr w ]} = w.
Proof. unfold watermark. rewrite lookup_singleton_eq. reflexivity. Qed.

Lemma typed_state_singleton cursor w :
  typed_state cursor {[ cursor := JStr w ]} = true.
Proof. unfold typed_state. rewrite lookup_singleton_eq. reflexivity. Qed.

Lemma get_updated_state_max (self : incremental) (state : mapping)
    (record : json) (b : string) :
  typed_state (cursor_field self) state = true ->
  latest_benchmark self record = Ok b ->
  IncrementalTwilioStream.get_updated_state self state record
  = Ok {[ cursor_field self :=
            JStr (str_max b (watermark (cursor_field self) state)) ]}.
Proof.
  unfold typed_state, latest_benchmark, watermark,
    IncrementalTwilioStream.get_updated_state, map_get.
  intros Htyped Hb.
  destruct (py_getitem record (cursor_field self)) as [v|e];
    [|discriminate]. cbn [bind] in *.
  destruct (pendulum_parse false v) as [dt|e]; [|discriminate].
  cbn [bind] in *. injection Hb as <-.
  destruct (state !! cursor_field self) as [[| | |w| |]|];
    try discriminate; cbn [truthy].
  - destruct (String.eqb_spec w "") as [->|Hw]; cbn [negb].
    + rewrite str_max_empty. reflexivity.
    + unfold py_max, py_gt_str, str_max. cbn [bind].
      destruct (String.ltb _ w); reflexivity.
  - rewrite str_max_empty. reflexivity.
Qed.

Lemma fold_updated_state_max (self : incremental) (records : list json) :
  forall (state : mapping) (values : list string),
    typed_state (cursor_field self) state = true ->
    Forall2 (fun r b => latest_benchmark self r = Ok b) records values ->
    exists state',
      fold_updated_state self state records = Ok state'
      /\ watermark (cursor_field self) state'
         = max_watermark (watermark (cursor_field self) state) values
      /\ (records <> [] ->
          state' = {[ cursor_field self :=
                        JStr (max_watermark
                                (watermark (cursor_field self) state) values) ]}).
Proof.
  induction records as [|r records IH]; intros state values Htyped Hall.
  - apply Forall2_nil_inv_l in Hall as ->. exists state.
    split; [reflexivity|]. split; [reflexivity|congruence].
  - apply Forall2_cons_inv_l in Hall as (b & values' & Hb & Hall & ->).
    cbn [fold_updated_state].
    rewrite (get_updated_state_max self state r b Htyped Hb). cbn [bind].
    set (w := str_max b (watermark (cursor_field self) state)).
    destruct (IH {[ cursor_field self := JStr w ]} values'
                (typed_state_singleton _ w) Hall)
      as (state' & Hfold & Hw & Hsingle).
    rewrite watermark_singleton in Hw, Hsingle.
    exists state'. split; [exact Hfold|]. split; [exact Hw|].
    intros _. destruct records as [|r' records].
    + apply Forall2_nil_inv_l in Hall as ->.
      cbn [fold_updated_state] in Hfold. injection Hfold as <-. reflexivity.
    + apply Hsingle. discriminate.
Qed.

(** C2. The watermark is a running maximum. With a prior state that holds
    no watermark or a [str], and a record whose cursor field parses,
    [get_updated_state] returns the maximum of the prior watermark and of the
    formatted cursor value, which is not below the prior watermark; and
    folding it over records whose cursor fields parse ends in the greatest
    of the prior watermark and of all the formatted values: a bound of them
    all, one of them, and the same for any order of the values. *)
Theorem watermark_is_running_max (self : incremental) :
  (forall (state : mapping) (record : json) (b : string),
      typed_state (cursor_field self) state = true ->
      latest_benchmark self record = Ok b ->
      IncrementalTwilioStream.get_updated_state self state record
      = Ok {[ cursor_field self :=
                JStr (str_max b (watermark (cursor_field self) state)) ]}
      /\ String.leb (watermark (cursor_field self) state)
           (str_max b (watermark (cursor_field self) state)) = true
      /\ String.leb b (str_max b (watermark (cursor_field self) state)) = true)
  /\ (forall (state : mapping) (records : list json) (values : list string),
      typed_state (cursor_field self) state = true ->
      Forall2 (fun r b => latest_benchmark self r = Ok b) records values ->
      let prior := watermark (cursor_field self) state in
      exists state',
        fold_updated_state self state records = Ok state'
        /\ watermark (cursor_field self) state' = max_watermark prior values
        /\ String.leb prior (max_watermark prior values) = true
        /\ Forall (fun b => String.leb b (max_watermark prior values) = true)
             values
        /\ In (max_watermark prior values) (prior :: values)
        /\ forall values', Permutation values values' ->
             max_watermark prior values' = max_watermark prior values).
Proof.
  split.
  - intros state record b Htyped Hb.
    split; [apply get_updated_state_max; assumption|].
    split; [apply str_max_r|apply str_max_l].
  - intros state records values Htyped Hall prior.
    destruct (fold_updated_state_max self records state values Htyped Hall)
      as (state' & Hfold & Hw & _).
    destruct (max_watermark_bounds prior values) as (Hp & Hb & Hin).
    exists state'. repeat split; try assumption.
    intros values' Hperm. symmetry. apply max_watermark_perm. exact Hperm.
Qed.

(** C4. A record without the cursor field makes [get_updated_state] raise
    [KeyError], whatever the prior state. *)
Theorem missing_cursor_field_raises (self : incremental) (state : mapping)
    (o : list (string * json)) :
  assoc (cursor_field self) o = None ->
  IncrementalTwilioStream.get_updated_state self state (JObj o)
  = Err (KeyError (cursor_field self)).
Proof.
  intros Ho. unfold IncrementalTwilioStream.get_updated_state, py_getitem.
  rewrite Ho. reflexivity.
Qed.

(** C10. The state that [get_updated_state] returns has the cursor field as
    its only key: no other key of the prior state is carried over. *)
Theorem updated_state_is_replaced (self : incremental) (state : mapping)
    (record : json) (b : string) :
  typed_state (cursor_field self) state = true ->
  latest_benchmark self record = Ok b ->
  exists state' w,
    IncrementalTwilioStream.get_updated_state self state record = Ok state'
    /\ state' = {[ cursor_field self := JStr w ]}
    /\ dom state' = {[ cursor_field self ]}
    /\ forall k, k <> cursor_field self -> state' !! k = None.
Proof.
  intros Htyped Hb. eexists. eexists.
  split; [apply get_updated_state_max; eassumption|].
  split; [reflexivity|]. split; [apply dom_singleton_L|].
  intros k Hk. apply lookup_singleton_ne. congruence.
Qed.

(** Without the assumption on the prior state: [get_updated_state] returns
    a state of one key or raises. *)
Lemma updated_state_one_key_or_error (self : incremental) (state : mapping)
    (record : json) :
  (exists e,
      IncrementalTwilioStream.get_updated_state self state record = Err e)
  \/ (exists v,
      IncrementalTwilioStream.get_updated_state self state record
      = Ok {[ cursor_field self := v ]}).
Proof.
  unfold IncrementalTwilioStream.get_updated_state.
  destruct (py_getitem record (cursor_field self)) as [v|e];
    [|left; eexists; reflexivity]. cbn [bind].
  destruct (pendulum_parse false v) as [dt|e];
    [|left; eexists; reflexivity]. cbn [bind].
  destruct (truthy (map_get state (cursor_field self)));
    [|right; eexists; reflexivity].
  destruct (py_max _ _) as [m|e];
    [right|left]; eexists; reflexivity.
Qed.

End IncrementalState.

Lemma watermark_is_running_max_witness :
  let prior : mapping :=
    <["end_time" := JStr "2021-03-01T00:00:00Z"]> {[ "page" := JNum 7 ]} in
  IncrementalTwilioStream.get_updated_state (H := IsoLib.lib)
    calls_incremental prior (call_ended "2021-01-01T00:00:00Z")
  = Ok {[ "end_time" := JStr "2021-03-01T00:00:00Z" ]}
  /\ exists state',
      fold_updated_state (H := IsoLib.lib) calls_incremental prior
        [call_ended "2021-06-01T00:00:00Z"; call_ended "2021-02-01T00:00:00Z"]
      = Ok state'
      /\ watermark "end_time" state' = "2021-06-01T00:00:00Z".
Proof.
  intros prior.
  destruct (watermark_is_running_max (H := IsoLib.lib) calls_incremental)
    as [Hstep Hfold].
  split.
  - destruct (Hstep prior (call_ended "2021-01-01T00:00:00Z")
                "2021-01-01T00:00:00Z") as [Heq _];
      [reflexivity|reflexivity|].
    rewrite Heq. reflexivity.
  - destruct (Hfold prior
                [call_ended "2021-06-01T00:00:00Z";
                 call_ended "2021-02-01T00:00:00Z"]
                ["2021-06-01T00:00:00Z"; "2021-02-01T00:00:00Z"])
      as (state' & Hrun & Hw & _).
    + reflexivity.
    + repeat constructor.
    + exists state'. split; [exact Hrun|].
      refine (eq_trans Hw _). vm_compute. reflexivity.
Defined.

Lemma missing_cursor_field_raises_witness :
  IncrementalTwilioStream.get_updated_state (H := IsoLib.lib)
    calls_incremental {[ "end_time" := JStr "2021-03-01T00:00:00Z" ]}
    (JObj [("sid", JStr "CA1")])
  = Err (KeyError "end_time").
Proof.
  apply (missing_cursor_field_raises (H := IsoLib.lib) calls_incremental).
  reflexivity.
Defined.

Lemma updated_state_is_replaced_witness :
  let prior : mapping :=
    <["end_time" := JStr "2021-03-01T00:00:00Z"]> {[ "page" := JNum 7 ]} in
  exists state' w,
    IncrementalTwilioStream.get_updated_state (H := IsoLib.lib)
      calls_incremental prior (call_ended "2021-06-01T00:00:00Z")
    = Ok state'
    /\ state' = {[ "end_time" := JStr w ]}
    /\ state' !! "page" = None.
Proof.
  intros prior.
  destruct (updated_state_is_replaced (H := IsoLib.lib) calls_incremental
              prior (call_ended "2021-06-01T00:00:00Z")
              "2021-06-01T00:00:00Z")
    as (state' & w & Hrun & Hsingle & _ & Hother);
    [reflexivity|reflexivity|].
  exists state', w. split; [exact Hrun|]. split; [exact Hsingle|].
  apply Hother. discriminate.
Defined.

(** ** The incremental filter *)

Section IncrementalFilter.
Context `{PyLib}.

Lemma map_get_watermark cursor state :
  typed_state cursor state = true ->
  py_or (map_get state cursor) JNull
  = (if String.eqb (watermark cursor state) "" then JNull
     else JStr (watermark cursor state))
  /\ truthy (map_get state cursor)
     = negb (String.eqb (watermark cursor state) "").
Proof.
  unfold typed_state, watermark, map_get, py_or.
  destruct (state !! cursor) as [[| | |w| |]|]; try discriminate; intros _.
  - cbn [truthy]. destruct (String.eqb w ""); split; reflexivity.
  - split; reflexivity.
Qed.

(** C7. The effective start of an incremental request is the watermark of
    the state when there is one, otherwise the start date of the stream.
    When it exists and parses, the parameters of the base class receive the
    filter field with the effective start formatted to the time template, a
    watermark taking precedence over any start date; when there is neither,
    the parameters are those of the base class. *)
Theorem incremental_filter_injection (self : incremental)
    (state : mapping) (token : option mapping) :
  typed_state (cursor_field self) state = true ->
  let base := TwilioStream.request_params state token in
  let filter parsed :=
    <[ incremental_filter_field self :=
         JStr (strftime parsed (time_filter_template self)) ]> base in
  (forall (start : option string) parsed,
      watermark (cursor_field self) state <> "" ->
      pendulum_parse true (JStr (watermark (cursor_field self) state))
        = Ok parsed ->
      IncrementalTwilioStream.request_params self start state token
      = Ok (filter parsed))
  /\ (forall (start : string) parsed,
      watermark (cursor_field self) state = "" ->
      start <> "" ->
      pendulum_parse true (JStr start) = Ok parsed ->
      IncrementalTwilioStream.request_params self (Some start) state token
      = Ok (filter parsed))
  /\ (watermark (cursor_field self) state = "" ->
      IncrementalTwilioStream.request_params self None state token = Ok base).
Proof.
  intros Htyped base filter.
  unfold IncrementalTwilioStream.request_params, py_or.
  destruct (map_get_watermark _ _ Htyped) as [_ Htruthy].
  rewrite Htruthy. clear Htruthy.
  assert (Hget : watermark (cursor_field self) state <> "" ->
                 map_get state (cursor_field self)
                 = JStr (watermark (cursor_field self) state)).
  { unfold typed_state, watermark, map_get in *.
    destruct (state !! cursor_field self) as [[| | |w| |]|];
      try discriminate; congruence. }
  split; [|split].
  - intros start parsed Hw Hparse.
    destruct (String.eqb_spec (watermark (cursor_field self) state) "")
      as [E|_]; [congruence|]. cbn [negb].
    rewrite (Hget Hw). cbn [truthy].
    destruct (String.eqb_spec (watermark (cursor_field self) state) "")
      as [E|_]; [congruence|]. cbn [negb].
    rewrite Hparse. cbn [bind]. unfold py_update, filter.
    rewrite insert_union_singleton_l. reflexivity.
  - intros start parsed Hw Hstart Hparse. rewrite Hw. cbn [String.eqb negb].
    cbn [opt_str truthy].
    destruct (String.eqb_spec start "") as [E|_]; [congruence|]. cbn [negb].
    rewrite Hparse. cbn [bind]. unfold py_update, filter.
    rewrite insert_union_singleton_l. reflexivity.
  - intros Hw. rewrite Hw. reflexivity.
Qed.

End IncrementalFilter.

Lemma incremental_filter_injection_witness :
  let state : mapping := {[ "end_time" := JStr "2021-06-01T00:00:00Z" ]} in
  IncrementalTwilioStream.request_params (H := IsoLib.lib) calls_incremental
    (Some "2021-01-01T00:00:00Z") ∅ None
  = Ok (<["EndTime>" := JStr "2021-01-01T00:00:00Z"]>
          {[ "PageSize" := JNum 100 ]})
  /\ IncrementalTwilioStream.request_params (H := IsoLib.lib)
       calls_incremental (Some "2021-01-01T00:00:00Z") state None
     = Ok (<["EndTime>" := JStr "2021-06-01T00:00:00Z"]>
             {[ "PageSize" := JNum 100 ]})
  /\ IncrementalTwilioStream.request_params (H := IsoLib.lib)
       calls_incremental None ∅ None
     = Ok {[ "PageSize" := JNum 100 ]}.
Proof.
  intros state.
  destruct (incremental_filter_injection (H := IsoLib.lib) calls_incremental
              ∅ None) as (_ & Hstart & Hnone); [reflexivity|].
  destruct (incremental_filter_injection (H := IsoLib.lib) calls_incremental
              state None) as (Hstate & _ & _); [reflexivity|].
  split; [|split].
  - rewrite (Hstart "2021-01-01T00:00:00Z"
               (IsoLib.mkDateTime 2021 1 1 0 0 0));
      [reflexivity|reflexivity|discriminate|reflexivity].
  - rewrite (Hstate (Some "2021-01-01T00:00:00Z")
               (IsoLib.mkDateTime 2021 6 1 0 0 0));
      [reflexivity|discriminate|reflexivity].
  - rewrite Hnone; reflexivity.
Defined.

(** ** Nested slices *)

Lemma validate_checks checks o validated :
  truthy validated = true ->
  exists v,
    TwilioNestedStream.validate checks (JObj o) validated = Ok v
    /\ truthy v = forallb (check_passes o) checks.
Proof.
  revert validated. induction checks as [|[key value] checks IH];
    intros validated Hv; cbn [TwilioNestedStream.validate forallb].
  - exists validated. split; [reflexivity|exact Hv].
  - unfold py_get, py_get_default, check_passes. cbn [bind fst snd].
    destruct (assoc key o) as [x|]; unfold py_and.
    + destruct (truthy x) eqn:Hx; cbn [andb].
      * cbn [truthy]. destruct (py_ne_str x value) eqn:Hne; cbn [negb].
        -- apply (IH (JBool true)). reflexivity.
        -- exists (JBool false). split; reflexivity.
      * rewrite Hx. cbn [negb]. exists x. split; [reflexivity|exact Hx].
    + cbn [truthy negb]. exists JNull. split; reflexivity.
Qed.

(** C6, as amended. What one parent record yields. With [locator] the
    value under the locator key of [subresource_uris] ([None] when the key
    is missing): no slice when [locator] is false (missing, [None], empty);
    no slice when some validation field is missing, false or equal to its
    sentinel; otherwise exactly one slice, carrying [locator]. *)
Theorem nested_slice_rule (self : stream) (o uris : list (string * json)) :
  subresource_uris o = JObj uris ->
  let locator :=
    match assoc (subresource_uri_key self) uris with
    | Some v => v
    | None => JNull
    end in
  (truthy locator = false ->
   TwilioNestedStream.slices_of_item self (JObj o) = Ok [])
  /\ (truthy locator = true ->
      forallb (check_passes o) (media_exist_validation self) = false ->
      TwilioNestedStream.slices_of_item self (JObj o) = Ok [])
  /\ (truthy locator = true ->
      forallb (check_passes o) (media_exist_validation self) = true ->
      TwilioNestedStream.slices_of_item self (JObj o)
      = Ok [ {[ "subresource_uri" := locator ]} ]).
Proof.
  intros Huris locator.
  assert (Hhead :
    TwilioNestedStream.slices_of_item self (JObj o)
    = if truthy locator then
        let/r validated :=
          TwilioNestedStream.validate (media_exist_validation self) (JObj o)
            (JBool true) in
        if truthy validated then
          let/r uris' := py_getitem (JObj o) "subresource_uris" in
          let/r uri := py_getitem uris' (subresource_uri_key self) in
          Ok [ {[ "subresource_uri" := uri ]} ]
        else Ok []
      else Ok []).
  { unfold TwilioNestedStream.slices_of_item, py_get, py_get_default.
    cbn [bind]. fold (subresource_uris o). rewrite Huris. reflexivity. }
  rewrite Hhead. clear Hhead.
  destruct (validate_checks (media_exist_validation self) o (JBool true)
              eq_refl) as (v & Hrun & Hv).
  rewrite Hrun. cbn [bind]. rewrite Hv.
  split; [|split].
  - intros ->. reflexivity.
  - intros -> ->. reflexivity.
  - intros Hloc ->. rewrite Hloc. unfold py_getitem.
    unfold subresource_uris in Huris. subst locator.
    destruct (assoc "subresource_uris" o) as [u|].
    + subst u. cbn [bind].
      destruct (assoc (subresource_uri_key self) uris) as [x|];
        [reflexivity|discriminate].
    + injection Huris as <-. discriminate.
Qed.

Lemma falsy_locator_yields_no_slice : ~ claimed_nested_slice_rule.
Proof.
  intros Hclaim.
  destruct (Hclaim MessageMedia (message "SM1" "5" JNull) [("media", JNull)]
              eq_refl) as (_ & _ & Hone).
  specialize (Hone JNull eq_refl).
  assert (Hnone : ~ Exists (check_fails_as_claimed (message "SM1" "5" JNull))
                      (media_exist_validation MessageMedia)).
  { intros Hex. apply Exists_cons in Hex as [[Hk|Hk]|Hex].
    - discriminate Hk.
    - discriminate Hk.
    - inversion Hex. }
  specialize (Hone Hnone). vm_compute in Hone. discriminate Hone.
Qed.

Lemma nested_slice_rule_witness :
  let media := JStr "/2010-04-01/Accounts/AC1/Messages/SM1/Media.json" in
  TwilioNestedStream.slices_of_item MessageMedia
    (JObj (message "SM1" "5" media))
  = Ok [ {[ "subresource_uri" := media ]} ]
  /\ TwilioNestedStream.slices_of_item MessageMedia
       (JObj (message "SM1" "0" media)) = Ok []
  /\ TwilioNestedStream.slices_of_item MessageMedia
       (JObj (message "SM1" "5" JNull)) = Ok []
  /\ TwilioNestedStream.slices_of_item MessageMedia
       (JObj [("sid", JStr "SM1"); ("num_media", JStr "5")]) = Ok [].
Proof.
  intros media. split; [|split; [|split]].
  - apply (proj2 (proj2 (nested_slice_rule MessageMedia
             (message "SM1" "5" media) [("media", media)] eq_refl)));
      reflexivity.
  - apply (proj1 (proj2 (nested_slice_rule MessageMedia
             (message "SM1" "0" media) [("media", media)] eq_refl)));
      reflexivity.
  - apply (proj1 (nested_slice_rule MessageMedia
             (message "SM1" "5" JNull) [("media", JNull)] eq_refl));
      reflexivity.
  - apply (proj1 (nested_slice_rule MessageMedia
             [("sid", JStr "SM1"); ("num_media", JStr "5")] [] eq_refl));
      reflexivity.
Defined.

Section NestedStreams.
Context `{PyLib} `{Framework}.

(** C9. A usage stream takes from every parent record that has a [sid]
    exactly one slice, the account id alone, whatever the record holds
    under [subresource_uris] and whatever the validation entries of the
    class; and the path of that slice is
    [Accounts/{account_sid}/Usage/{path_name}.json]. *)
Theorem usage_slice_is_account_id (self : instance) (path_name : string)
    (o : list (string * json)) (sid : json) :
  stream_shape (cls self) = UsageNestedStreamShape path_name ->
  assoc "sid" o = Some sid ->
  slices_of_item (cls self) (JObj o) = Ok [Some {[ "account_sid" := sid ]}]
  /\ path self (Some {[ "account_sid" := sid ]})
     = Ok (JStr ("Accounts/" ++ py_format sid ++ "/Usage/"
                 ++ path_name ++ ".json"))
  /\ forall s : string, sid = JStr s -> py_format sid = s.
Proof.
  intros Hshape Ho. unfold slices_of_item, path. rewrite Hshape.
  unfold UsageNestedStream.slices_of_item, UsageNestedStream.path,
    py_getitem, slice_getitem.
  rewrite Ho, lookup_singleton_eq. cbn [bind].
  split; [reflexivity|]. split; [reflexivity|].
  intros s ->. reflexivity.
Qed.

Lemma parent_request_params (parent : stream) (auth : Auth)
    (token : option mapping) :
  request_params (parent_instance parent auth) ∅ token
  = Ok (TwilioStream.request_params ∅ token).
Proof.
  unfold request_params, parent_instance. cbn [cls _start_date].
  destruct (stream_incremental parent) as [i|]; [|reflexivity].
  unfold IncrementalTwilioStream.request_params, map_get.
  rewrite lookup_empty. reflexivity.
Qed.

Lemma read_pages_plain (fuel : nat) (parent : stream) (auth : Auth)
    (stream_slice token : option mapping) :
  read_pages fuel (parent_instance parent auth) ∅ stream_slice token
  = read_pages fuel (parent_instance (plain parent) auth) ∅ stream_slice token.
Proof.
  revert token. induction fuel as [|fuel IH]; intros token; [reflexivity|].
  cbn [read_pages]. rewrite !parent_request_params.
  change (path (parent_instance (plain parent) auth) stream_slice)
    with (path (parent_instance parent auth) stream_slice).
  destruct (path (parent_instance parent auth) stream_slice) as [p|e];
    [|reflexivity]. cbn [bind parent_instance cls authenticator plain url_base].
  destruct (send_request _ _ _ _) as [response|e]; [|reflexivity].
  cbn [bind].
  change (TwilioStream.parse_response (plain parent) response)
    with (TwilioStream.parse_response parent response).
  destruct (TwilioStream.parse_response parent response) as [records|e];
    [|reflexivity]. cbn [bind].
  destruct (TwilioStream.next_page_token response) as [next|e];
    [|reflexivity]. cbn [bind].
  destruct (truthy_mapping next); [|reflexivity].
  change (mkInstance parent auth None) with (parent_instance parent auth).
  change (mkInstance (plain parent) auth None)
    with (parent_instance (plain parent) auth).
  rewrite IH. reflexivity.
Qed.

Lemma class_stream_slices_unfold (fuel : nat) (self parent : stream)
    (auth : Auth) (sync_mode : SyncMode.t) (cursor : json)
    (stream_state : option mapping) :
  parent_stream self = Some parent ->
  is_nested (stream_shape self) = true ->
  class_stream_slices fuel self auth sync_mode cursor stream_state
  = let stream_instance := parent_instance parent auth in
    let/r stream_slices :=
      class_stream_slices fuel parent auth SyncMode.full_refresh
        (instance_cursor_field stream_instance) None in
    flat_mapM (fun stream_slice =>
      let/r items :=
        read_records fuel stream_instance SyncMode.full_refresh
          (instance_cursor_field stream_instance) stream_slice None in
      flat_mapM (slices_of_item self) items) stream_slices.
Proof.
  destruct self as [n u d k v sh i p]. cbn [parent_stream stream_shape].
  intros -> Hnested. destruct sh; try discriminate; reflexivity.
Qed.

Lemma class_stream_slices_kwargs (fuel : nat) (self : stream) (auth : Auth)
    (sync_mode sync_mode' : SyncMode.t) (cursor cursor' : json)
    (stream_state stream_state' : option mapping) :
  class_stream_slices fuel self auth sync_mode cursor stream_state
  = class_stream_slices fuel self auth sync_mode' cursor' stream_state'.
Proof. destruct self as [n u d k v sh i [p|]]; destruct sh; reflexivity. Qed.

(** C8. A nested stream reads its parent in full. The parent object is
    built from the credentials alone, without start date; its records are
    read in full refresh mode from the empty state and without page token,
    so that every request of the traversal has the parameters of the base
    class, without incremental filter, exactly as if the parent class were
    not incremental; and the slices depend neither on the start date nor on
    the state of the nested stream. *)
Theorem parent_is_read_in_full (fuel : nat) (self parent : stream)
    (auth : Auth) :
  parent_stream self = Some parent ->
  is_nested (stream_shape self) = true ->
  let stream_instance := parent_instance parent auth in
  _start_date stream_instance = None
  /\ (forall token,
       request_params stream_instance ∅ token
       = Ok (TwilioStream.request_params ∅ token))
  /\ (forall cursor stream_slice,
       read_records fuel stream_instance SyncMode.full_refresh cursor
         stream_slice None
       = read_pages fuel stream_instance ∅ stream_slice None
       /\ read_records fuel stream_instance SyncMode.full_refresh cursor
            stream_slice None
          = read_records fuel (parent_instance (plain parent) auth)
              SyncMode.full_refresh cursor stream_slice None)
  /\ (forall sync_mode cursor stream_state,
       class_stream_slices fuel self auth sync_mode cursor stream_state
       = let/r stream_slices :=
           class_stream_slices fuel parent auth SyncMode.full_refresh
             (instance_cursor_field stream_instance) None in
         flat_mapM (fun stream_slice =>
           let/r items :=
             read_records fuel stream_instance SyncMode.full_refresh
               (instance_cursor_field stream_instance) stream_slice None in
           flat_mapM (slices_of_item self) items) stream_slices)
  /\ (forall start start' sync_mode sync_mode' cursor cursor'
             stream_state stream_state',
       stream_slices fuel (mkInstance self auth start) sync_mode cursor
         stream_state
       = stream_slices fuel (mkInstance self auth start') sync_mode' cursor'
           stream_state').
Proof.
  intros Hparent Hnested stream_instance.
  split; [reflexivity|]. split; [apply parent_request_params|].
  split; [|split].
  - intros cursor stream_slice. split; [reflexivity|].
    unfold read_records. cbn [default]. apply read_pages_plain.
  - intros sync_mode cursor stream_state.
    apply class_stream_slices_unfold; assumption.
  - intros. unfold stream_slices. cbn [cls authenticator].
    apply class_stream_slices_kwargs.
Qed.

End NestedStreams.

Lemma usage_slice_is_account_id_witness :
  slices_of_item UsageRecords (JObj (account "AC1"))
  = Ok [Some {[ "account_sid" := JStr "AC1" ]}]
  /\ path (H := IsoLib.lib) (@mkInstance SampleApi.api UsageRecords tt None)
       (Some {[ "account_sid" := JStr "AC1" ]})
     = Ok (JStr "Accounts/AC1/Usage/Records.json").
Proof.
  destruct (usage_slice_is_account_id (H := IsoLib.lib) (H0 := SampleApi.api)
              (@mkInstance SampleApi.api UsageRecords tt None) "Records"
              (account "AC1")
              (JStr "AC1") eq_refl eq_refl) as (Hslice & Hpath & _).
  split; [exact Hslice|exact Hpath].
Defined.

Lemma parent_is_read_in_full_witness :
  let child_state : mapping := {[ "date_updated" := JStr "2021-06-01T00:00:00Z" ]} in
  request_params (H := IsoLib.lib) (H0 := SampleApi.api)
    (@parent_instance SampleApi.api Messages tt) ∅ None
  = Ok {[ "PageSize" := JNum 100 ]}
  /\ stream_slices (H := IsoLib.lib) (H0 := SampleApi.api) 3
       (@mkInstance SampleApi.api MessageMedia tt
          (Some "2021-01-01T00:00:00Z"))
       SyncMode.incremental (JStr "date_updated") (Some child_state)
     = Ok [Some {[ "subresource_uri" := SampleApi.media_uri "SM2" ]}].
Proof.
  intros child_state.
  destruct (parent_is_read_in_full (H := IsoLib.lib) (H0 := SampleApi.api)
              3 MessageMedia Messages tt eq_refl eq_refl)
    as (_ & Hparams & _ & _ & Hsame).
  split.
  - rewrite Hparams. reflexivity.
  - rewrite (Hsame (Some "2021-01-01T00:00:00Z") None SyncMode.incremental
               SyncMode.full_refresh (JStr "date_updated") (JArr [])
               (Some child_state) None).
    vm_compute. reflexivity.
Defined.

(** * Further properties *)

(** ** Pagination tokens: edge cases *)

Section TokenEdges.
Context `{PyLib}.

(** X1. Without continuation URL there is no token: when [next_page_uri] is
    missing from the document, or holds a value that is false ([None], the
    empty [str], ...), [next_page_token] returns [None]. *)
Theorem next_page_token_absent (o : list (string * json)) :
  (assoc "next_page_uri" o = None ->
   TwilioStream.next_page_token (JObj o) = Ok None)
  /\ (forall v,
       assoc "next_page_uri" o = Some v -> truthy v = false ->
       TwilioStream.next_page_token (JObj o) = Ok None).
Proof.
  unfold TwilioStream.next_page_token, py_get, py_get_default.
  split; [intros Ho|intros v Ho Hv]; rewrite Ho; cbn [bind];
    [reflexivity|rewrite Hv; reflexivity].
Qed.

(** X2. A document that is not an object, and a continuation URL that is
    true but not a [str], make [next_page_token] raise [AttributeError]. *)
Theorem next_page_token_type_errors :
  (forall doc,
      (forall o, doc <> JObj o) ->
      TwilioStream.next_page_token doc = Err AttributeError)
  /\ (forall o v,
       assoc "next_page_uri" o = Some v -> truthy v = true ->
       (forall s, v <> JStr s) ->
       TwilioStream.next_page_token (JObj o) = Err AttributeError).
Proof.
  unfold TwilioStream.next_page_token, py_get, py_get_default. split.
  - intros doc Hdoc. destruct doc; try reflexivity. destruct (Hdoc o eq_refl).
  - intros o v Ho Hv Hstr. rewrite Ho. cbn [bind]. rewrite Hv.
    destruct v; try reflexivity. destruct (Hstr s eq_refl).
Qed.

End TokenEdges.

Lemma next_page_token_absent_witness :
  TwilioStream.next_page_token (H := IsoLib.lib)
    (JObj [("calls", JArr [])]) = Ok None
  /\ TwilioStream.next_page_token (H := IsoLib.lib)
       (JObj [("calls", JArr []); ("next_page_uri", JNull)]) = Ok None.
Proof.
  split.
  - apply (proj1 (next_page_token_absent (H := IsoLib.lib)
                    [("calls", JArr [])])).
    reflexivity.
  - apply (proj2 (next_page_token_absent (H := IsoLib.lib)
                    [("calls", JArr []); ("next_page_uri", JNull)]) JNull);
      reflexivity.
Defined.

Lemma next_page_token_type_errors_witness :
  TwilioStream.next_page_token (H := IsoLib.lib) (JArr [])
    = Err AttributeError
  /\ TwilioStream.next_page_token (H := IsoLib.lib)
       (JObj [("next_page_uri", JNum 2)]) = Err AttributeError.
Proof.
  split.
  - apply (proj1 (next_page_token_type_errors (H := IsoLib.lib))).
    discriminate.
  - apply (proj2 (next_page_token_type_errors (H := IsoLib.lib))
             [("next_page_uri", JNum 2)] (JNum 2));
      [reflexivity|reflexivity|discriminate].
Defined.

(** ** [dict]: the last pair of a key *)

Lemma py_dict_app l1 l2 :
  py_dict (l1 ++ l2)
  = fold_left (fun m kv => <[kv.1 := JStr kv.2]> m) l2 (py_dict l1).
Proof. unfold py_dict. apply fold_left_app. Qed.

Lemma fold_insert_other (l : list (string * string)) (m : mapping) k :
  ~ In k (map fst l) ->
  fold_left (fun m kv => <[kv.1 := JStr kv.2]> m) l m !! k = m !! k.
Proof.
  revert m. induction l as [|[k' v'] l IH]; intros m Hk; [reflexivity|].
  cbn [fold_left map fst snd In] in *. rewrite IH by tauto.
  apply lookup_insert_ne. intros ->. tauto.
Qed.

Lemma py_dict_last l1 l2 k v :
  ~ In k (map fst l2) ->
  py_dict (l1 ++ (k, v) :: l2) !! k = Some (JStr v).
Proof.
  intros Hk. rewrite py_dict_app. cbn [fold_left fst snd].
  rewrite fold_insert_other by exact Hk. apply lookup_insert_eq.
Qed.

Lemma py_dict_missing l k : ~ In k (map fst l) -> py_dict l !! k = None.
Proof.
  intros Hk. unfold py_dict. rewrite fold_insert_other by exact Hk.
  apply lookup_empty.
Qed.

(** ** [urllib.parse] on unescaped URLs *)

Lemma str_remove_app p a b :
  str_remove p (a ++ b) = str_remove p a ++ str_remove p b.
Proof.
  induction a as [|x a IH]; cbn [String.append str_remove]; [reflexivity|].
  destruct (p x); cbn [String.append]; rewrite IH; reflexivity.
Qed.

Lemma str_mem_replace c a b s :
  str_mem c s = false -> ascii_eqb b c = false ->
  str_mem c (str_replace a b s) = false.
Proof.
  intros Hs Hb. induction s as [|x s IH]; [reflexivity|].
  cbn [str_mem str_replace] in *. apply orb_false_elim in Hs as [Hx Hs].
  rewrite (IH Hs), orb_false_r. destruct (ascii_eqb x a); assumption.
Qed.

Lemma kept_pairs_cons k v fields :
  kept_pairs ((k, v) :: fields)
  = ((if String.eqb v "" then [] else [(k, str_replace "+" " " v)])
     ++ kept_pairs fields)%list.
Proof.
  unfold kept_pairs. cbn [filter]. unfold filter. cbn [list_filter snd].
  destruct (String.eqb_spec v "") as [->|Hv]; cbn [negb].
  - rewrite decide_False by (cbn; tauto). reflexivity.
  - rewrite decide_True by (cbn; tauto). reflexivity.
Qed.

Section UnescapedQueries.
Context `{PyLib}.

Lemma loose_field_mem c k v :
  plain_key k = true -> loose_value v = true ->
  str_mem c "&#%" = true ->
  str_mem c (k ++ String "=" v) = false.
Proof.
  intros Hk Hv Hc. rewrite str_mem_app. cbn [str_mem].
  unfold plain_key in Hk. apply andb_prop in Hk as [_ Hk].
  unfold loose_value in Hv. apply andb_prop in Hv as [_ Hv].
  rewrite (str_free_mem _ v c Hv Hc), orb_false_r.
  assert (Hc' : str_mem c "&=#%+" = true).
  { revert Hc. cbn [str_mem]. intros Hc.
    repeat (apply orb_prop in Hc as [Hc|Hc]; [rewrite Hc, ?orb_true_r; reflexivity|]).
    discriminate Hc. }
  rewrite (str_free_mem _ k c Hk Hc'). cbn [orb].
  revert Hc. cbn [str_mem]. unfold ascii_eqb.
  destruct (Ascii.eqb_spec "=" c) as [<-|]; [discriminate|reflexivity].
Qed.

Lemma qs_field_loose k v :
  plain_key k = true -> loose_value v = true ->
  urllib.qs_field false false (k ++ String "=" v)
  = Ok (if String.eqb v "" then [] else [(k, str_replace "+" " " v)]).
Proof.
  intros Hk Hv. unfold urllib.qs_field.
  rewrite append_nonempty. cbn [andb].
  rewrite str_cut_app by (apply plain_key_mem; auto).
  cbn [bind]. destruct (String.eqb v ""); cbn [negb orb]; [reflexivity|].
  rewrite (str_replace_id "+" " " k) by (apply plain_key_mem; auto).
  rewrite (unquote_plain k) by (apply plain_key_mem; auto).
  rewrite unquote_plain; [reflexivity|].
  apply str_mem_replace; [|reflexivity].
  unfold loose_value in Hv. apply andb_prop in Hv as [_ Hv].
  eapply str_free_mem; [exact Hv|reflexivity].
Qed.

Lemma parse_qsl_loose fields :
  forallb loose_pair fields = true ->
  urllib.parse_qsl (query_string fields) = Ok (kept_pairs fields).
Proof.
  unfold urllib.parse_qsl, urllib.parse_qsl_with, query_string.
  induction fields as [|[k v] fields IH]; [reflexivity|].
  cbn [forallb map]. intros Hall. apply andb_prop in Hall as [Hkv Hall].
  unfold loose_pair in Hkv. cbn [fst snd] in *.
  apply andb_prop in Hkv as [Hk Hv].
  assert (Hamp : str_mem "&" (k ++ String "=" v) = false)
    by (apply loose_field_mem; auto).
  rewrite kept_pairs_cons.
  destruct fields as [|kv' fields].
  - cbn [map String.concat]. rewrite str_split_none by exact Hamp.
    cbn [urllib.qs_fields]. rewrite qs_field_loose by assumption.
    reflexivity.
  - specialize (IH Hall). cbn [map] in *.
    change (String.concat "&" ((k ++ String "=" v) :: ?x :: ?l))
      with ((k ++ String "=" v) ++ String "&" (String.concat "&" (x :: l))).
    rewrite str_split_app by exact Hamp.
    cbn [urllib.qs_fields]. rewrite qs_field_loose by assumption.
    rewrite IH. reflexivity.
Qed.

Lemma loose_query_safe fields :
  forallb loose_pair fields = true ->
  url_safe (query_string fields) = true
  /\ str_mem "#" (query_string fields) = false.
Proof.
  unfold query_string.
  induction fields as [|[k v] fields IH]; [split; reflexivity|].
  cbn [forallb map]. intros Hall. apply andb_prop in Hall as [Hkv Hall].
  unfold loose_pair in Hkv. cbn [fst snd] in *.
  apply andb_prop in Hkv as [Hk Hv].
  assert (Hhash : str_mem "#" (k ++ String "=" v) = false)
    by (apply loose_field_mem; auto).
  assert (Hfield : url_safe (k ++ String "=" v) = true).
  { unfold plain_key in Hk. apply andb_prop in Hk as [Hk _].
    unfold loose_value in Hv. apply andb_prop in Hv as [Hv _].
    unfold url_safe in *. rewrite str_free_app, Hk. exact Hv. }
  destruct fields as [|kv' fields]; [split; assumption|].
  destruct (IH Hall) as [IHs IHh]. cbn [map] in *.
  change (String.concat "&" ((k ++ String "=" v) :: ?x :: ?l))
    with ((k ++ String "=" v) ++ String "&" (String.concat "&" (x :: l))).
  split.
  - unfold url_safe in *. rewrite str_free_app, Hfield. exact IHs.
  - rewrite str_mem_app, Hhash. exact IHh.
Qed.

Lemma append_assoc (a b c : string) : (a ++ b) ++ c = a ++ (b ++ c).
Proof.
  induction a as [|x a IH]; cbn [String.append]; [reflexivity|].
  rewrite IH. reflexivity.
Qed.

(** [urlsplit] on a relative URL with a fragment. *)
Lemma urlsplit_relative_fragment p q f :
  relative_url_path p = true ->
  url_safe q = true -> str_mem "#" q = false ->
  urllib.urlsplit (p ++ String "?" (q ++ String "#" f))
  = Ok (urllib.mkSplit "" "" p q (str_remove urllib.unsafe_url_byte f)).
Proof.
  unfold relative_url_path. intros Hp Hq Hfrag.
  apply andb_prop in Hp as [Hp Hnet]. apply andb_prop in Hp as [Hsafe Hfree].
  assert (Hcolon : str_mem ":" p = false) by (eapply str_free_mem; eauto).
  assert (Hhash : str_mem "#" p = false) by (eapply str_free_mem; eauto).
  assert (Hquest : str_mem "?" p = false) by (eapply str_free_mem; eauto).
  unfold urllib.urlsplit.
  set (f' := str_remove urllib.unsafe_url_byte f).
  assert (Hclean :
    str_remove urllib.unsafe_url_byte (p ++ String "?" (q ++ String "#" f))
    = p ++ String "?" (q ++ String "#" f')).
  { rewrite str_remove_app, (url_safe_remove p Hsafe).
    cbn [str_remove]. change (urllib.unsafe_url_byte "?") with false.
    cbn iota. rewrite str_remove_app, (url_safe_remove q Hq).
    reflexivity. }
  rewrite Hclean. rewrite (no_scheme p _ Hcolon).
  rewrite no_netloc
    by (destruct (str_strip_prefix "//" p); [discriminate|reflexivity]).
  cbn [bind].
  assert (Hcut : str_cut "#" (p ++ String "?" (q ++ String "#" f'))
                 = Some (p ++ String "?" q, f')).
  { replace (p ++ String "?" (q ++ String "#" f'))
      with ((p ++ String "?" q) ++ String "#" f')
      by (rewrite append_assoc; reflexivity).
    apply str_cut_app. rewrite str_mem_app. cbn [str_mem].
    rewrite Hhash, Hfrag. reflexivity. }
  rewrite Hcut. rewrite (str_cut_app "?" p q Hquest). reflexivity.
Qed.

Lemma scheme_char_facts c :
  urllib.scheme_char c = true ->
  urllib.unsafe_url_byte c = false /\ ascii_eqb c ":" = false.
Proof.
  destruct c as [[] [] [] [] [] [] [] []]; vm_compute;
    intros Hc; try discriminate Hc; split; reflexivity.
Qed.

Lemma scheme_facts s :
  str_forall urllib.scheme_char s = true ->
  url_safe s = true /\ str_mem ":" s = false.
Proof.
  unfold url_safe, str_free.
  induction s as [|c s IH]; [split; reflexivity|].
  cbn [str_forall str_mem]. intros Hs. apply andb_prop in Hs as [Hc Hs].
  destruct (IH Hs) as [IH1 IH2]. destruct (scheme_char_facts c Hc) as [Hu Hcolon].
  unfold urllib.unsafe_url_byte in Hu. rewrite Hu, Hcolon, IH1, IH2.
  split; reflexivity.
Qed.

Lemma splitnetloc_host h t :
  str_free "/?#" h = true ->
  match t with
  | EmptyString => true
  | String c _ => str_mem c "/?#"
  end = true ->
  urllib.splitnetloc (h ++ t) = (h, t).
Proof.
  unfold str_free. intros Hh Ht.
  induction h as [|c h IH]; cbn [String.append].
  - destruct t as [|c t]; [reflexivity|].
    cbn [urllib.splitnetloc]. rewrite Ht. reflexivity.
  - cbn [str_forall] in Hh. apply andb_prop in Hh as [Hc Hh].
    cbn [urllib.splitnetloc]. apply negb_true_iff in Hc. rewrite Hc.
    rewrite (IH Hh). reflexivity.
Qed.

(** [urlsplit] on an absolute URL. *)
Lemma urlsplit_absolute s h p q :
  valid_scheme s = true -> plain_host h = true ->
  absolute_path p = true ->
  url_safe q = true -> str_mem "#" q = false ->
  urllib.urlsplit (s ++ String ":" (String "/" (String "/"
                     (h ++ p ++ String "?" q))))
  = Ok (urllib.mkSplit (str_lower s) h p q "").
Proof.
  unfold valid_scheme, plain_host, absolute_path.
  intros Hs Hh Hp Hq Hfrag.
  apply andb_prop in Hs as [Hsne Hs].
  apply andb_prop in Hh as [Hh Hascii]. apply andb_prop in Hh as [Hhsafe Hh].
  apply andb_prop in Hp as [Hp Hstart]. apply andb_prop in Hp as [Hpsafe Hp].
  destruct (scheme_facts s Hs) as [Hssafe Hscolon].
  assert (Hph : str_mem "#" p = false) by (eapply str_free_mem; eauto).
  assert (Hpq : str_mem "?" p = false) by (eapply str_free_mem; eauto).
  unfold urllib.urlsplit.
  rewrite url_safe_remove.
  2:{ unfold url_safe in *. rewrite str_free_app, Hssafe.
      unfold str_free. cbn [str_forall]. change (negb (str_mem ":" urllib.unsafe_url_bytes)) with true.
      change (negb (str_mem "/" urllib.unsafe_url_bytes)) with true.
      cbn [andb]. fold (str_free urllib.unsafe_url_bytes (h ++ p ++ String "?" q)).
      rewrite !str_free_app, Hhsafe, Hpsafe. exact Hq. }
  rewrite (str_cut_app ":" s _ Hscolon). rewrite Hsne, Hs. cbn [andb].
  cbn [str_strip_prefix]. unfold ascii_eqb at 1 2.
  rewrite !Ascii.eqb_refl.
  rewrite (splitnetloc_host h (p ++ String "?" q)).
  2:{ unfold str_free in *. eapply str_forall_impl; [|exact Hh].
      intros c Hc. apply negb_true_iff in Hc. apply negb_true_iff.
      revert Hc. cbn [str_mem]. intros Hc.
      repeat (apply orb_false_elim in Hc as [? Hc]).
      repeat match goal with E : ascii_eqb _ _ = false |- _ => rewrite E; clear E end.
      reflexivity. }
  2:{ destruct p as [|c p]; cbn [String.append]; [reflexivity|].
      cbn [str_mem]. unfold ascii_eqb in *.
      destruct (Ascii.eqb_spec c "/") as [->|]; [reflexivity|discriminate]. }
  rewrite (str_free_mem "/?#[]" h "[" Hh eq_refl).
  rewrite (str_free_mem "/?#[]" h "]" Hh eq_refl).
  cbn [andb orb bind].
  rewrite (str_cut_none "#")
    by (rewrite str_mem_app; cbn [str_mem]; rewrite Hph, Hfrag; reflexivity).
  rewrite (str_cut_app "?" p q Hpq).
  unfold urllib.checknetloc. rewrite Hascii, orb_true_r. reflexivity.
Qed.

End UnescapedQueries.

Section TokenShapes.
Context `{PyLib}.

(** X3. A key that occurs several times in the query string of the
    continuation URL is bound in the token to the value of its last
    occurrence; a key that does not occur is not bound. *)
Theorem token_last_value_wins (o : list (string * json)) (p : string)
    (before after : list (string * string)) (k v : string) :
  assoc "next_page_uri" o
    = Some (JStr (p ++ String "?"
                    (query_string (before ++ (k, v) :: after)))) ->
  relative_url_path p = true ->
  forallb plain_pair (before ++ (k, v) :: after) = true ->
  ~ In k (map fst after) ->
  exists token,
    TwilioStream.next_page_token (JObj o) = Ok (Some token)
    /\ token !! k = Some (JStr v)
    /\ forall k', ~ In k' (map fst (before ++ (k, v) :: after)) ->
         token !! k' = None.
Proof.
  intros Ho Hp Hall Hk. eexists.
  split; [apply (next_page_token_relative o p _ Ho Hp Hall)|].
  split; [apply py_dict_last; exact Hk|].
  intros k' Hk'. apply py_dict_missing. exact Hk'.
Qed.

(** X4. The token of an unescaped query string: a field without value is
    dropped, and every plus sign of a value is read as a space. *)
Theorem token_of_unescaped_query (o : list (string * json)) (p : string)
    (fields : list (string * string)) :
  assoc "next_page_uri" o
    = Some (JStr (p ++ String "?" (query_string fields))) ->
  relative_url_path p = true ->
  forallb loose_pair fields = true ->
  TwilioStream.next_page_token (JObj o)
  = Ok (Some (py_dict (kept_pairs fields))).
Proof.
  intros Ho Hp Hall. destruct (loose_query_safe fields Hall) as [Hsafe Hhash].
  eapply next_page_token_parsed; [exact Ho| | |].
  - intros E. apply (f_equal (fun s => String.eqb s "")) in E.
    rewrite append_nonempty in E. discriminate E.
  - apply (urlsplit_relative p _ Hp Hsafe Hhash).
  - apply (parse_qsl_loose fields Hall).
Qed.

(** X5. The fragment of a continuation URL never enters the token: with
    any text after a [#], the token is that of the query string alone. *)
Theorem token_ignores_fragment (o : list (string * json)) (p f : string)
    (fields : list (string * string)) :
  assoc "next_page_uri" o
    = Some (JStr (p ++ String "?" (query_string fields ++ String "#" f))) ->
  relative_url_path p = true ->
  forallb loose_pair fields = true ->
  TwilioStream.next_page_token (JObj o)
  = Ok (Some (py_dict (kept_pairs fields))).
Proof.
  intros Ho Hp Hall. destruct (loose_query_safe fields Hall) as [Hsafe Hhash].
  eapply next_page_token_parsed; [exact Ho| | |].
  - intros E. apply (f_equal (fun s => String.eqb s "")) in E.
    rewrite append_nonempty in E. discriminate E.
  - apply (urlsplit_relative_fragment p _ f Hp Hsafe Hhash).
  - apply (parse_qsl_loose fields Hall).
Qed.

(** X6. Scheme and host of a continuation URL are ignored: an absolute URL
    gives the token of its query string. *)
Theorem token_of_absolute_url (o : list (string * json)) (s h p : string)
    (fields : list (string * string)) :
  assoc "next_page_uri" o
    = Some (JStr (s ++ String ":" (String "/" (String "/"
                    (h ++ p ++ String "?" (query_string fields)))))) ->
  valid_scheme s = true -> plain_host h = true ->
  absolute_path p = true ->
  forallb loose_pair fields = true ->
  TwilioStream.next_page_token (JObj o)
  = Ok (Some (py_dict (kept_pairs fields))).
Proof.
  intros Ho Hs Hh Hp Hall.
  destruct (loose_query_safe fields Hall) as [Hsafe Hhash].
  eapply next_page_token_parsed; [exact Ho| | |].
  - intros E. apply (f_equal (fun s => String.eqb s "")) in E.
    rewrite append_nonempty in E. discriminate E.
  - apply (urlsplit_absolute s h p _ Hs Hh Hp Hsafe Hhash).
  - apply (parse_qsl_loose fields Hall).
Qed.

End TokenShapes.

Lemma token_last_value_wins_witness :
  exists token,
    TwilioStream.next_page_token (H := IsoLib.lib)
      (JObj [("next_page_uri",
              JStr "/2010-04-01/Accounts.json?Page=1&PageToken=a&Page=2")])
    = Ok (Some token)
    /\ token !! "Page" = Some (JStr "2").
Proof.
  destruct (token_last_value_wins (H := IsoLib.lib)
              [("next_page_uri",
                JStr "/2010-04-01/Accounts.json?Page=1&PageToken=a&Page=2")]
              "/2010-04-01/Accounts.json"
              [("Page", "1"); ("PageToken", "a")] [] "Page" "2")
    as (token & Hrun & Hlast & _);
    [reflexivity|reflexivity|reflexivity|intros []|].
  exists token. split; [exact Hrun|exact Hlast].
Defined.

Lemma token_of_unescaped_query_witness :
  TwilioStream.next_page_token (H := IsoLib.lib)
    (JObj [("next_page_uri",
            JStr "/2010-04-01/Accounts.json?To=a+b&From=&Page=2")])
  = Ok (Some (<["To" := JStr "a b"]> {[ "Page" := JStr "2" ]})).
Proof.
  refine (eq_trans
    (token_of_unescaped_query (H := IsoLib.lib)
       [("next_page_uri",
         JStr "/2010-04-01/Accounts.json?To=a+b&From=&Page=2")]
       "/2010-04-01/Accounts.json"
       [("To", "a+b"); ("From", ""); ("Page", "2")] _ _ _) _);
    reflexivity.
Defined.

Lemma token_ignores_fragment_witness :
  TwilioStream.next_page_token (H := IsoLib.lib)
    (JObj [("next_page_uri",
            JStr "/2010-04-01/Accounts.json?Page=2#Page=3&x=1")])
  = Ok (Some {[ "Page" := JStr "2" ]}).
Proof.
  refine (eq_trans
    (token_ignores_fragment (H := IsoLib.lib)
       [("next_page_uri",
         JStr "/2010-04-01/Accounts.json?Page=2#Page=3&x=1")]
       "/2010-04-01/Accounts.json" "Page=3&x=1" [("Page", "2")] _ _ _) _);
    reflexivity.
Defined.

Lemma token_of_absolute_url_witness :
  TwilioStream.next_page_token (H := IsoLib.lib)
    (JObj [("next_page_uri",
            JStr "https://api.twilio.com/2010-04-01/Accounts.json?Page=2")])
  = Ok (Some {[ "Page" := JStr "2" ]}).
Proof.
  refine (eq_trans
    (token_of_absolute_url (H := IsoLib.lib)
       [("next_page_uri",
         JStr "https://api.twilio.com/2010-04-01/Accounts.json?Page=2")]
       "https" "api.twilio.com" "/2010-04-01/Accounts.json"
       [("Page", "2")] _ _ _ _ _) _);
    reflexivity.
Defined.

(** ** Request parameters *)

Lemma page_size_present (stream_state : mapping)
    (next_page_token : option mapping) :
  is_Some
    (TwilioStream.request_params stream_state next_page_token !! "PageSize").
Proof.
  unfold TwilioStream.request_params, TwilioStream.HttpStream_request_params,
    py_update.
  destruct (truthy_mapping next_page_token).
  - rewrite lookup_union.
    rewrite (lookup_insert_eq (M := gmap string)).
    destruct (default ∅ next_page_token !! "PageSize"); eexists; reflexivity.
  - rewrite lookup_insert_eq. eexists; reflexivity.
Qed.

(** X7. The parameters of a request always hold [PageSize]. Without page
    token, or with an empty one, they are [PageSize = 100] alone; a token
    that carries its own [PageSize] overrides the 100; and the stream state
    is never read. *)
Theorem request_params_page_size (stream_state : mapping)
    (next_page_token : option mapping) :
  (truthy_mapping next_page_token = false ->
   TwilioStream.request_params stream_state next_page_token
   = {[ "PageSize" := JNum 100 ]})
  /\ is_Some
       (TwilioStream.request_params stream_state next_page_token
          !! "PageSize")
  /\ (forall token v,
       next_page_token = Some token -> token !! "PageSize" = Some v ->
       TwilioStream.request_params stream_state next_page_token
         !! "PageSize" = Some v)
  /\ (forall stream_state',
       TwilioStream.request_params stream_state' next_page_token
       = TwilioStream.request_params stream_state next_page_token).
Proof.
  split; [|split; [apply page_size_present|]];
    unfold TwilioStream.request_params,
      TwilioStream.HttpStream_request_params, py_update;
    [intros ->; reflexivity|]. split.
  - intros token v -> Hv. unfold truthy_mapping.
    rewrite bool_decide_false.
    + cbn [negb]. change (default ∅ (Some token)) with token.
      rewrite lookup_union, Hv.
      rewrite lookup_insert_eq. reflexivity.
    + intros ->. rewrite lookup_empty in Hv. discriminate Hv.
  - reflexivity.
Qed.

Lemma request_params_page_size_witness :
  TwilioStream.request_params {[ "date_updated" := JStr "x" ]} (Some ∅)
  = {[ "PageSize" := JNum 100 ]}
  /\ TwilioStream.request_params ∅
       (Some (<["PageSize" := JStr "50"]> {[ "Page" := JStr "2" ]}))
       !! "PageSize" = Some (JStr "50").
Proof.
  split.
  - apply (proj1 (request_params_page_size {[ "date_updated" := JStr "x" ]}
                    (Some ∅))).
    reflexivity.
  - apply (proj1 (proj2 (proj2 (request_params_page_size ∅
             (Some (<["PageSize" := JStr "50"]> {[ "Page" := JStr "2" ]})))))
             (<["PageSize" := JStr "50"]> {[ "Page" := JStr "2" ]})
             (JStr "50"));
      reflexivity.
Defined.

Section IncrementalEdges.
Context `{PyLib}.

(** X8. The incremental filter touches one key. With [start] the state
    value under the cursor field if it is true, else the start date:
    when [start] is false the parameters are those of the base class;
    when [start] does not parse, the request fails with the error of the
    parser; when it parses, the filter field holds the formatted date, also
    in place of an entry of the page token with the same name, and every
    other key is as in the base class. *)
Theorem incremental_filter_frame (self : incremental)
    (start_date : option string) (stream_state : mapping)
    (next_page_token : option mapping) :
  let base := TwilioStream.request_params stream_state next_page_token in
  let start :=
    py_or (map_get stream_state (cursor_field self)) (opt_str start_date) in
  (truthy start = false ->
   IncrementalTwilioStream.request_params self start_date stream_state
     next_page_token = Ok base)
  /\ (truthy start = true -> forall e,
      pendulum_parse true start = Err e ->
      IncrementalTwilioStream.request_params self start_date stream_state
        next_page_token = Err e)
  /\ (truthy start = true -> forall parsed,
      pendulum_parse true start = Ok parsed ->
      exists params,
        IncrementalTwilioStream.request_params self start_date stream_state
          next_page_token = Ok params
        /\ params !! incremental_filter_field self
           = Some (JStr (strftime parsed (time_filter_template self)))
        /\ forall k, k <> incremental_filter_field self ->
             params !! k = base !! k).
Proof.
  intros base start. unfold IncrementalTwilioStream.request_params.
  fold base. fold start.
  split; [intros ->; reflexivity|].
  split; intros ->.
  - intros e ->. reflexivity.
  - intros parsed ->. cbn [bind]. eexists. split; [reflexivity|].
    unfold py_update. rewrite <- insert_union_singleton_l.
    split; [apply lookup_insert_eq|].
    intros k Hk. apply lookup_insert_ne. congruence.
Qed.

Lemma get_updated_state_again (self : incremental) (state : mapping)
    (record : json) (b : string) :
  typed_state (cursor_field self) state = true ->
  latest_benchmark self record = Ok b ->
  exists state',
    IncrementalTwilioStream.get_updated_state self state record = Ok state'
    /\ IncrementalTwilioStream.get_updated_state self state' record
       = Ok state'.
Proof.
  intros Htyped Hb. eexists.
  split; [apply (get_updated_state_max self state record b Htyped Hb)|].
  rewrite (get_updated_state_max self _ record b
             (typed_state_singleton _ _) Hb).
  rewrite watermark_singleton. do 3 f_equal.
  unfold str_max at 1.
  destruct (String.ltb b _) eqn:Hlt; [reflexivity|].
  apply String.leb_antisym; [apply str_max_l|].
  unfold String.leb. unfold String.ltb in Hlt.
  rewrite String.compare_antisym.
  destruct (String.compare b _); try reflexivity; discriminate Hlt.
Qed.

Lemma benchmarks_of (self : incremental) (records : list json) :
  Forall (fun r => exists b, latest_benchmark self r = Ok b) records ->
  Forall2 (fun r b => latest_benchmark self r = Ok b) records
    (map (benchmark_of self) records).
Proof.
  induction 1 as [|r records [b Hb] _ IH]; cbn [map]; constructor;
    [|exact IH].
  unfold benchmark_of. rewrite Hb. reflexivity.
Qed.

(** X9. The state does not depend on repetitions nor on the order of the
    records. With a prior state that holds no watermark or a [str], and
    records whose cursor fields parse: passing the record that was just
    passed leaves the state as it is, and two sequences of records that
    are permutations of each other end in the same state. *)
Theorem updated_state_idempotent_and_commutative (self : incremental)
    (state : mapping) :
  typed_state (cursor_field self) state = true ->
  (forall record b,
      latest_benchmark self record = Ok b ->
      exists state',
        IncrementalTwilioStream.get_updated_state self state record
          = Ok state'
        /\ IncrementalTwilioStream.get_updated_state self state' record
           = Ok state')
  /\ (forall records records',
      Forall (fun r => exists b, latest_benchmark self r = Ok b) records ->
      Permutation records records' ->
      exists state',
        fold_updated_state self state records = Ok state'
        /\ fold_updated_state self state records' = Ok state').
Proof.
  intros Htyped. split.
  - intros record b Hb. apply (get_updated_state_again self state record b);
      assumption.
  - intros records records' Hall Hperm.
    assert (Hall' : Forall (fun r => exists b, latest_benchmark self r = Ok b)
                      records') by (rewrite <- Hperm; exact Hall).
    destruct (fold_updated_state_max self records state _ Htyped
                (benchmarks_of self records Hall))
      as (s1 & Hrun1 & _ & Hsingle1).
    destruct (fold_updated_state_max self records' state _ Htyped
                (benchmarks_of self records' Hall'))
      as (s2 & Hrun2 & _ & Hsingle2).
    exists s1. split; [exact Hrun1|]. rewrite Hrun2. f_equal.
    destruct records as [|r records].
    + apply Permutation_nil_l in Hperm. subst records'.
      cbn [fold_updated_state] in *. congruence.
    + assert (Hne' : records' <> []).
      { intros ->. apply Permutation_nil_r in Hperm. discriminate Hperm. }
      rewrite (Hsingle2 Hne'), Hsingle1 by discriminate.
      do 2 f_equal. apply max_watermark_perm.
      apply Permutation_map. symmetry. exact Hperm.
Qed.

(** X10. A prior watermark of another type. With a record whose cursor
    field parses to [b]: a prior value that is false ([None], the empty
    [str], 0, an empty list) is ignored and the new state holds [b]; a prior
    value that is true and not a [str] makes [get_updated_state] raise
    [TypeError]. A record whose cursor field does not parse raises the
    error of the parser, whatever the prior state. *)
Theorem updated_state_prior_of_other_type (self : incremental)
    (state : mapping) (record : json) :
  let prior := map_get state (cursor_field self) in
  (forall b,
      latest_benchmark self record = Ok b -> truthy prior = false ->
      IncrementalTwilioStream.get_updated_state self state record
      = Ok {[ cursor_field self := JStr b ]})
  /\ (forall b,
      latest_benchmark self record = Ok b -> truthy prior = true ->
      (forall w, prior <> JStr w) ->
      IncrementalTwilioStream.get_updated_state self state record
      = Err TypeError)
  /\ (forall e,
      latest_benchmark self record = Err e ->
      IncrementalTwilioStream.get_updated_state self state record = Err e).
Proof.
  intros prior. unfold latest_benchmark,
    IncrementalTwilioStream.get_updated_state. fold prior.
  destruct (py_getitem record (cursor_field self)) as [v|e0]; cbn [bind].
  - destruct (pendulum_parse false v) as [dt|e0]; cbn [bind].
    + split; [|split].
      * intros b Hb ->. injection Hb as <-. reflexivity.
      * intros b _ -> Hstr. unfold py_max, py_gt_str.
        destruct prior; try reflexivity. destruct (Hstr s eq_refl).
      * intros e He. discriminate He.
    + split; [|split]; try (intros b Hb; discriminate Hb).
      intros e He. injection He as <-. reflexivity.
  - split; [|split]; try (intros b Hb; discriminate Hb).
    intros e He. injection He as <-. reflexivity.
Qed.

(** X11. What [parse_response] does with an unusable body: a document
    that is not an object raises [AttributeError]; a record key that holds
    [None], a Boolean or a number raises [TypeError]. *)
Theorem parse_response_unusable_body (self : stream) :
  (forall doc,
      (forall o, doc <> JObj o) ->
      TwilioStream.parse_response self doc = Err AttributeError)
  /\ (forall o v,
       assoc (data_field self) o = Some v ->
       match v with JNull | JBool _ | JNum _ => True | _ => False end ->
       TwilioStream.parse_response self (JObj o) = Err TypeError).
Proof.
  unfold TwilioStream.parse_response, py_get_default. split.
  - intros doc Hdoc. destruct doc; try reflexivity. destruct (Hdoc o eq_refl).
  - intros o v -> Hv. destruct v; try contradiction; reflexivity.
Qed.

End IncrementalEdges.

Lemma incremental_filter_frame_witness :
  let token : mapping := <["EndTime>" := JStr "old"]> {[ "Page" := JStr "2" ]} in
  (exists params,
      IncrementalTwilioStream.request_params (H := IsoLib.lib)
        calls_incremental (Some "2021-01-01T00:00:00Z") ∅ (Some token)
      = Ok params
      /\ params !! "EndTime>" = Some (JStr "2021-01-01T00:00:00Z")
      /\ params !! "Page" = Some (JStr "2"))
  /\ IncrementalTwilioStream.request_params (H := IsoLib.lib)
       calls_incremental (Some "yesterday") ∅ (Some token)
     = Err ParserError
  /\ IncrementalTwilioStream.request_params (H := IsoLib.lib)
       calls_incremental (Some "") ∅ None
     = Ok {[ "PageSize" := JNum 100 ]}.
Proof.
  intros token. split; [|split].
  - destruct (incremental_filter_frame (H := IsoLib.lib) calls_incremental
                (Some "2021-01-01T00:00:00Z") ∅ (Some token))
      as (_ & _ & Hok).
    destruct (Hok eq_refl (IsoLib.mkDateTime 2021 1 1 0 0 0) eq_refl)
      as (params & Hrun & Hfilter & Hother).
    exists params. split; [exact Hrun|]. split; [exact Hfilter|].
    rewrite Hother by discriminate. reflexivity.
  - destruct (incremental_filter_frame (H := IsoLib.lib) calls_incremental
                (Some "yesterday") ∅ (Some token)) as (_ & Herr & _).
    apply (Herr eq_refl ParserError). reflexivity.
  - destruct (incremental_filter_frame (H := IsoLib.lib) calls_incremental
                (Some "") ∅ None) as (Hnone & _ & _).
    apply (Hnone eq_refl).
Defined.

Lemma updated_state_idempotent_and_commutative_witness :
  let prior : mapping := {[ "end_time" := JStr "2021-03-01T00:00:00Z" ]} in
  let r1 := call_ended "2021-06-01T00:00:00Z" in
  let r2 := call_ended "2021-02-01T00:00:00Z" in
  exists state',
    fold_updated_state (H := IsoLib.lib) calls_incremental prior [r1; r2]
      = Ok state'
    /\ fold_updated_state (H := IsoLib.lib) calls_incremental prior [r2; r1]
       = Ok state'
    /\ IncrementalTwilioStream.get_updated_state (H := IsoLib.lib)
         calls_incremental state' r1 = Ok state'.
Proof.
  intros prior r1 r2.
  destruct (updated_state_idempotent_and_commutative (H := IsoLib.lib)
              calls_incremental prior eq_refl) as [_ Hperm].
  destruct (Hperm [r1; r2] [r2; r1]) as (state' & Hrun & Hrun').
  - repeat constructor; eexists; reflexivity.
  - apply perm_swap.
  - exists state'. split; [exact Hrun|]. split; [exact Hrun'|].
    vm_compute in Hrun. injection Hrun as <-. vm_compute. reflexivity.
Defined.

Lemma updated_state_prior_of_other_type_witness :
  IncrementalTwilioStream.get_updated_state (H := IsoLib.lib)
    calls_incremental {[ "end_time" := JNum 5 ]}
    (call_ended "2021-06-01T00:00:00Z")
  = Err TypeError
  /\ IncrementalTwilioStream.get_updated_state (H := IsoLib.lib)
       calls_incremental {[ "end_time" := JStr "" ]}
       (call_ended "2021-06-01T00:00:00Z")
     = Ok {[ "end_time" := JStr "2021-06-01T00:00:00Z" ]}
  /\ IncrementalTwilioStream.get_updated_state (H := IsoLib.lib)
       calls_incremental {[ "end_time" := JNum 5 ]} (call_ended "soon")
     = Err ParserError.
Proof.
  split; [|split].
  - apply (proj1 (proj2 (updated_state_prior_of_other_type (H := IsoLib.lib)
             calls_incremental {[ "end_time" := JNum 5 ]}
             (call_ended "2021-06-01T00:00:00Z"))) "2021-06-01T00:00:00Z");
      [reflexivity|reflexivity|discriminate].
  - apply (proj1 (updated_state_prior_of_other_type (H := IsoLib.lib)
             calls_incremental {[ "end_time" := JStr "" ]}
             (call_ended "2021-06-01T00:00:00Z")) "2021-06-01T00:00:00Z");
      reflexivity.
  - apply (proj2 (proj2 (updated_state_prior_of_other_type (H := IsoLib.lib)
             calls_incremental {[ "end_time" := JNum 5 ]}
             (call_ended "soon")))).
    reflexivity.
Defined.

Lemma parse_response_unusable_body_witness :
  TwilioStream.parse_response Calls (JArr []) = Err AttributeError
  /\ TwilioStream.parse_response Calls (JObj [("calls", JNull)])
     = Err TypeError.
Proof.
  split.
  - apply (proj1 (parse_response_unusable_body Calls)). discriminate.
  - apply (proj2 (parse_response_unusable_body Calls)
             [("calls", JNull)] JNull); [reflexivity|exact I].
Defined.

(** ** Nested slices: the loop over the parent records *)

Lemma forallb_perm {A} (p : A -> bool) (l l' : list A) :
  Permutation l l' -> forallb p l = forallb p l'.
Proof.
  induction 1 as [|x l l' _ IH|x y l|l l' l'' _ IH1 _ IH2]; cbn [forallb].
  - reflexivity.
  - rewrite IH. reflexivity.
  - rewrite !andb_assoc, (andb_comm (p y)). reflexivity.
  - congruence.
Qed.

Lemma nested_slices_spec (self : stream) (o : list (string * json)) :
  TwilioNestedStream.slices_of_item self (JObj o)
  = match subresource_uris o with
    | JObj _ =>
        Ok (if qualifies self o
            then [ {[ "subresource_uri" := locator self o ]} ] else [])
    | _ => Err AttributeError
    end.
Proof.
  unfold TwilioNestedStream.slices_of_item, py_get, py_get_default.
  cbn [bind]. fold (subresource_uris o). unfold qualifies, locator.
  destruct (subresource_uris o) as [| | | | |uris] eqn:Huris;
    try reflexivity.
  cbn [bind].
  destruct (validate_checks (media_exist_validation self) o (JBool true)
              eq_refl) as (v & Hrun & Hv).
  rewrite Hrun. cbn [bind]. rewrite Hv.
  destruct (assoc (subresource_uri_key self) uris) as [x|] eqn:Hx;
    [|reflexivity].
  destruct (truthy x) eqn:Htx; [|reflexivity]. cbn [andb].
  destruct (forallb _ _); [|reflexivity].
  unfold py_getitem, subresource_uris in *.
  destruct (assoc "subresource_uris" o) as [u|].
  - subst u. cbn [bind]. rewrite Hx. reflexivity.
  - injection Huris as <-. discriminate Hx.
Qed.

Lemma flat_mapM_app {A B} (f : A -> result (list B)) (l1 l2 : list A) :
  flat_mapM f (l1 ++ l2)
  = let/r x := flat_mapM f l1 in
    let/r y := flat_mapM f l2 in Ok (x ++ y)%list.
Proof.
  induction l1 as [|a l1 IH]; cbn [flat_mapM app bind].
  - destruct (flat_mapM f l2); reflexivity.
  - destruct (f a) as [ys|e]; [|reflexivity]. cbn [bind]. rewrite IH.
    destruct (flat_mapM f l1) as [x|e]; [|reflexivity]. cbn [bind].
    destruct (flat_mapM f l2) as [y|e]; [|reflexivity]. cbn [bind].
    rewrite app_assoc. reflexivity.
Qed.

Lemma flat_mapM_nested {A B C} (g : A -> result (list B))
    (f : B -> result (list C)) (l : list A) (items : list B) :
  flat_mapM g l = Ok items ->
  flat_mapM (fun a => let/r bs := g a in flat_mapM f bs) l
  = flat_mapM f items.
Proof.
  revert items. induction l as [|a l IH]; intros items; cbn [flat_mapM].
  - intros Hl. injection Hl as <-. reflexivity.
  - destruct (g a) as [bs|e]; [|discriminate]. cbn [bind].
    destruct (flat_mapM g l) as [rest|e]; [|discriminate]. cbn [bind].
    intros Hl. injection Hl as <-. rewrite (IH rest eq_refl), flat_mapM_app.
    destruct (flat_mapM f bs) as [x|e]; [|reflexivity]. reflexivity.
Qed.

Section NestedLoops.
Context `{PyLib} `{Framework}.

Lemma slices_of_records_nested (self : stream)
    (os : list (list (string * json))) :
  stream_shape self = TwilioNestedStreamShape ->
  forallb well_shaped os = true ->
  flat_mapM (slices_of_item self) (map JObj os)
  = Ok (map (locator_slice self) (List.filter (qualifies self) os)).
Proof.
  intros Hshape. induction os as [|o os IH]; [reflexivity|].
  cbn [forallb map flat_mapM List.filter]. intros Hall.
  apply andb_prop in Hall as [Ho Hall]. rewrite (IH Hall).
  unfold slices_of_item at 1. rewrite Hshape, nested_slices_spec.
  unfold well_shaped in Ho.
  destruct (subresource_uris o); try discriminate Ho.
  cbn [bind]. destruct (qualifies self o); reflexivity.
Qed.

Lemma slices_of_records_usage (self : stream) (path_name : string)
    (os : list (list (string * json))) :
  stream_shape self = UsageNestedStreamShape path_name ->
  forallb (has_field "sid") os = true ->
  flat_mapM (slices_of_item self) (map JObj os)
  = Ok (map (fun o => Some {[ "account_sid" := field "sid" o ]}) os).
Proof.
  intros Hshape. induction os as [|o os IH]; [reflexivity|].
  cbn [forallb map flat_mapM]. intros Hall.
  apply andb_prop in Hall as [Ho Hall]. rewrite (IH Hall).
  unfold slices_of_item at 1. rewrite Hshape.
  unfold UsageNestedStream.slices_of_item, py_getitem, has_field, field in *.
  destruct (assoc "sid" o); [reflexivity|discriminate Ho].
Qed.

Lemma slices_of_records_dependent (self : stream)
    (os : list (list (string * json))) :
  stream_shape self = DependentPhoneNumbersShape ->
  forallb (fun o => has_field "sid" o && has_field "account_sid" o) os
    = true ->
  flat_mapM (slices_of_item self) (map JObj os)
  = Ok (map (fun o => Some (<["account_sid" := field "account_sid" o]>
                              {[ "sid" := field "sid" o ]})) os).
Proof.
  intros Hshape. induction os as [|o os IH]; [reflexivity|].
  cbn [forallb map flat_mapM]. intros Hall.
  apply andb_prop in Hall as [Ho Hall]. rewrite (IH Hall).
  apply andb_prop in Ho as [Hsid Hacc].
  unfold slices_of_item at 1. rewrite Hshape.
  unfold DependentPhoneNumbers.slices_of_item, py_getitem, has_field,
    field in *.
  destruct (assoc "sid" o); [|discriminate Hsid].
  destruct (assoc "account_sid" o); [reflexivity|discriminate Hacc].
Qed.

Lemma stream_slices_of_items (fuel : nat) (self parent : stream)
    (auth : Auth) (sync_mode : SyncMode.t) (cursor : json)
    (stream_state : option mapping)
    (parent_slices : list (option mapping)) (items : list json) :
  parent_stream self = Some parent ->
  is_nested (stream_shape self) = true ->
  class_stream_slices fuel parent auth SyncMode.full_refresh
    (instance_cursor_field (parent_instance parent auth)) None
    = Ok parent_slices ->
  flat_mapM (fun stream_slice =>
    read_records fuel (parent_instance parent auth) SyncMode.full_refresh
      (instance_cursor_field (parent_instance parent auth)) stream_slice None)
    parent_slices = Ok items ->
  class_stream_slices fuel self auth sync_mode cursor stream_state
  = flat_mapM (slices_of_item self) items.
Proof.
  intros Hparent Hnested Hslices Hitems.
  rewrite (class_stream_slices_unfold fuel self parent auth sync_mode cursor
             stream_state Hparent Hnested).
  cbv zeta. rewrite Hslices. cbn [bind].
  apply flat_mapM_nested. exact Hitems.
Qed.

End NestedLoops.

Section NestedProperties.
Context `{PyLib} `{Framework}.

(** X12. The slices of a nested stream are the locators of the qualifying
    parent records, in the order in which the parent delivers them. When
    the records read from the parent are objects whose [subresource_uris]
    is missing or an object, [stream_slices] yields one slice for each
    record whose locator is true and whose validation entries all hold,
    and nothing for the others. *)
Theorem nested_stream_slices_in_order (fuel : nat) (self parent : stream)
    (auth : Auth) (sync_mode : SyncMode.t) (cursor : json)
    (stream_state : option mapping)
    (parent_slices : list (option mapping))
    (os : list (list (string * json))) :
  parent_stream self = Some parent ->
  stream_shape self = TwilioNestedStreamShape ->
  class_stream_slices fuel parent auth SyncMode.full_refresh
    (instance_cursor_field (parent_instance parent auth)) None
    = Ok parent_slices ->
  flat_mapM (fun stream_slice =>
    read_records fuel (parent_instance parent auth) SyncMode.full_refresh
      (instance_cursor_field (parent_instance parent auth)) stream_slice None)
    parent_slices = Ok (map JObj os) ->
  forallb well_shaped os = true ->
  class_stream_slices fuel self auth sync_mode cursor stream_state
  = Ok (map (locator_slice self) (List.filter (qualifies self) os)).
Proof.
  intros Hparent Hshape Hslices Hitems Hos.
  rewrite (stream_slices_of_items fuel self parent auth sync_mode cursor
             stream_state parent_slices (map JObj os) Hparent
             ltac:(rewrite Hshape; reflexivity) Hslices Hitems).
  apply slices_of_records_nested; assumption.
Qed.

(** X13. [DependentPhoneNumbers] and the usage streams yield one slice for
    every parent record, in order: the pair of [sid] and [account_sid] of
    the record for the former, its [sid] as [account_sid] for the latter,
    provided every record has these fields. *)
Theorem one_slice_per_parent_record (fuel : nat) (self parent : stream)
    (auth : Auth) (sync_mode : SyncMode.t) (cursor : json)
    (stream_state : option mapping)
    (parent_slices : list (option mapping))
    (os : list (list (string * json))) :
  parent_stream self = Some parent ->
  class_stream_slices fuel parent auth SyncMode.full_refresh
    (instance_cursor_field (parent_instance parent auth)) None
    = Ok parent_slices ->
  flat_mapM (fun stream_slice =>
    read_records fuel (parent_instance parent auth) SyncMode.full_refresh
      (instance_cursor_field (parent_instance parent auth)) stream_slice None)
    parent_slices = Ok (map JObj os) ->
  (stream_shape self = DependentPhoneNumbersShape ->
   forallb (fun o => has_field "sid" o && has_field "account_sid" o) os
     = true ->
   class_stream_slices fuel self auth sync_mode cursor stream_state
   = Ok (map (fun o => Some (<["account_sid" := field "account_sid" o]>
                               {[ "sid" := field "sid" o ]})) os))
  /\ (forall path_name,
       stream_shape self = UsageNestedStreamShape path_name ->
       forallb (has_field "sid") os = true ->
       class_stream_slices fuel self auth sync_mode cursor stream_state
       = Ok (map (fun o => Some {[ "account_sid" := field "sid" o ]}) os)).
Proof.
  intros Hparent Hslices Hitems. split.
  - intros Hshape Hos.
    rewrite (stream_slices_of_items fuel self parent auth sync_mode cursor
               stream_state parent_slices (map JObj os) Hparent
               ltac:(rewrite Hshape; reflexivity) Hslices Hitems).
    apply slices_of_records_dependent; assumption.
  - intros path_name Hshape Hos.
    rewrite (stream_slices_of_items fuel self parent auth sync_mode cursor
               stream_state parent_slices (map JObj os) Hparent
               ltac:(rewrite Hshape; reflexivity) Hslices Hitems).
    apply (slices_of_records_usage self path_name); assumption.
Qed.

Lemma nested_slices_shape (self : stream) (item : json)
    (slices : list mapping) :
  TwilioNestedStream.slices_of_item self item = Ok slices ->
  slices = []
  \/ exists v, slices = [ {[ "subresource_uri" := v ]} ] /\ truthy v = true.
Proof.
  destruct item as [| | | | |o]; try discriminate.
  rewrite nested_slices_spec.
  destruct (subresource_uris o); try discriminate.
  unfold qualifies. destruct (truthy (locator self o)) eqn:Hloc; cbn [andb].
  - destruct (forallb _ _); intros Hs; injection Hs as <-; [right|left; reflexivity].
    eexists. split; [reflexivity|exact Hloc].
  - intros Hs. injection Hs as <-. left. reflexivity.
Qed.

(** X14. Every slice that a stream yields is one that its [path] accepts:
    for each of the nested classes, [path] of a slice taken from a parent
    record by [stream_slices] raises nothing and is not empty. *)
Theorem yielded_slices_have_paths (self : instance) (item : json)
    (slices : list (option mapping)) :
  is_nested (stream_shape (cls self)) = true ->
  slices_of_item (cls self) item = Ok slices ->
  forall stream_slice, In stream_slice slices ->
    exists p, path self stream_slice = Ok p /\ truthy p = true.
Proof.
  intros Hnested. unfold slices_of_item, path.
  destruct (stream_shape (cls self)) as [| | | |path_name];
    try discriminate Hnested.
  - destruct (TwilioNestedStream.slices_of_item (cls self) item)
      as [sl|e] eqn:Hrun; [|discriminate]. cbn [bind].
    intros Hs. injection Hs as <-.
    destruct (nested_slices_shape _ _ _ Hrun) as [->|(v & -> & Hv)];
      intros stream_slice Hin; [destruct Hin|].
    destruct Hin as [<-|[]]. exists v.
    unfold TwilioNestedStream.path, slice_getitem.
    rewrite lookup_singleton_eq. split; [reflexivity|exact Hv].
  - unfold DependentPhoneNumbers.slices_of_item.
    destruct (py_getitem item "sid") as [sid|e]; [|discriminate].
    cbn [bind].
    destruct (py_getitem item "account_sid") as [acc|e]; [|discriminate].
    cbn [bind]. intros Hs. injection Hs as <-.
    intros stream_slice [<-|[]].
    unfold DependentPhoneNumbers.path, slice_getitem.
    rewrite lookup_insert_eq. cbn [bind].
    rewrite lookup_insert_ne by discriminate.
    rewrite lookup_singleton_eq. cbn [bind].
    eexists. split; [reflexivity|reflexivity].
  - unfold UsageNestedStream.slices_of_item.
    destruct (py_getitem item "sid") as [sid|e]; [|discriminate].
    cbn [bind]. intros Hs. injection Hs as <-.
    intros stream_slice [<-|[]].
    unfold UsageNestedStream.path, slice_getitem.
    rewrite lookup_singleton_eq. cbn [bind].
    eexists. split; [reflexivity|reflexivity].
Qed.

End NestedProperties.

(** X15. A parent record that cannot be read is an error, not a skipped
    record. For the generic nested stream, a record that is not an object,
    or whose [subresource_uris] is present and not an object, raises
    [AttributeError]. For [DependentPhoneNumbers] a record without [sid]
    raises [KeyError] for [sid], and one with [sid] but without
    [account_sid] raises it for [account_sid]; for a usage stream a record
    without [sid] raises [KeyError] for [sid]. *)
Theorem unreadable_parent_record_raises :
  (forall self item,
      (forall o, item <> JObj o) ->
      TwilioNestedStream.slices_of_item self item = Err AttributeError)
  /\ (forall self o v,
       assoc "subresource_uris" o = Some v ->
       (forall uris, v <> JObj uris) ->
       TwilioNestedStream.slices_of_item self (JObj o) = Err AttributeError)
  /\ (forall o,
       assoc "sid" o = None ->
       DependentPhoneNumbers.slices_of_item (JObj o) = Err (KeyError "sid")
       /\ UsageNestedStream.slices_of_item (JObj o) = Err (KeyError "sid"))
  /\ (forall o sid,
       assoc "sid" o = Some sid -> assoc "account_sid" o = None ->
       DependentPhoneNumbers.slices_of_item (JObj o)
       = Err (KeyError "account_sid")).
Proof.
  split; [|split; [|split]].
  - intros self item Hitem.
    destruct item; try reflexivity. destruct (Hitem o eq_refl).
  - intros self o v Ho Hv. rewrite nested_slices_spec.
    unfold subresource_uris. rewrite Ho.
    destruct v; try reflexivity. destruct (Hv o0 eq_refl).
  - intros o Ho.
    unfold DependentPhoneNumbers.slices_of_item,
      UsageNestedStream.slices_of_item, py_getitem.
    rewrite Ho. split; reflexivity.
  - intros o sid Hsid Hacc.
    unfold DependentPhoneNumbers.slices_of_item, py_getitem.
    rewrite Hsid, Hacc. reflexivity.
Qed.

(** X16. The order of the entries of [media_exist_validation] does not
    matter: two classes with the same locator key whose validation entries
    are permutations of each other take the same slices from every
    record. *)
Theorem validation_order_is_irrelevant (self self' : stream) (item : json) :
  subresource_uri_key self = subresource_uri_key self' ->
  Permutation (media_exist_validation self) (media_exist_validation self') ->
  TwilioNestedStream.slices_of_item self item
  = TwilioNestedStream.slices_of_item self' item.
Proof.
  intros Hkey Hperm.
  destruct item as [| | | | |o]; try reflexivity.
  rewrite !nested_slices_spec. unfold qualifies, locator.
  rewrite Hkey, (forallb_perm _ _ _ Hperm). reflexivity.
Qed.

Section TransportFailure.
Context `{PyLib} `{Framework}.

Variable e : pyerror.
Hypothesis down : forall url_base p params auth,
  send_request url_base p params auth = Err e.

Lemma read_root_down (fuel : nat) (parent : stream) (auth : Auth)
    (cursor : json) :
  is_nested (stream_shape parent) = false ->
  read_records (S fuel) (parent_instance parent auth) SyncMode.full_refresh
    cursor None None = Err e.
Proof.
  intros Hroot. unfold read_records. cbn [default read_pages].
  rewrite parent_request_params.
  unfold path. cbn [parent_instance cls].
  destruct (stream_shape parent); try discriminate Hroot;
    cbn [bind]; rewrite down; reflexivity.
Qed.

Lemma slices_down (n : nat) :
  forall (fuel : nat) (self : stream) (auth : Auth) sync_mode cursor
         stream_state,
    (depth self <= n)%nat ->
    resolvable self = true ->
    is_nested (stream_shape self) = true ->
    class_stream_slices (S fuel) self auth sync_mode cursor stream_state
    = Err e.
Proof.
  induction n as [|n IH]; intros fuel self auth sync_mode cursor stream_state
    Hdepth Hres Hnested.
  - destruct self as [nm u d k v sh i [p|]]; cbn [depth parent_stream] in Hdepth;
      [lia|].
    cbn [resolvable stream_shape parent_stream] in Hres, Hnested.
    destruct sh; discriminate.
  - destruct self as [nm u d k v sh i [p|]].
    2:{ cbn [resolvable stream_shape parent_stream] in Hres, Hnested.
        destruct sh; discriminate. }
    set (self := mkStream nm u d k v sh i (Some p)) in *.
    assert (Hresp : resolvable p = true).
    { cbn [resolvable stream_shape parent_stream self] in Hres, Hnested.
      destruct sh; try discriminate Hnested; exact Hres. }
    rewrite (class_stream_slices_unfold (S fuel) self p auth sync_mode cursor
               stream_state eq_refl Hnested).
    cbv zeta.
    destruct (is_nested (stream_shape p)) eqn:Hp.
    + rewrite IH; [reflexivity| |exact Hresp|exact Hp].
      cbn [depth parent_stream self] in Hdepth. lia.
    + assert (Hroot : class_stream_slices (S fuel) p auth
                        SyncMode.full_refresh
                        (instance_cursor_field (parent_instance p auth)) None
                      = Ok [None]).
      { destruct p as [nm' u' d' k' v' sh' i' p']. cbn [stream_shape] in Hp.
        destruct sh'; try discriminate Hp; reflexivity. }
      rewrite Hroot. cbn [bind flat_mapM].
      rewrite (read_root_down fuel p auth _ Hp). reflexivity.
Qed.

(** X17. A failure of the transport while a parent is read is the failure
    of the slices: when every request fails with an error, [stream_slices]
    of every nested stream whose chain of parents ends in a stream without
    parent fails with that error, at any depth of the chain, and yields no
    partial list of slices. *)
Theorem transport_failure_propagates (fuel : nat) (self : instance)
    (sync_mode : SyncMode.t) (cursor : json)
    (stream_state : option mapping) :
  resolvable (cls self) = true ->
  is_nested (stream_shape (cls self)) = true ->
  stream_slices (S fuel) self sync_mode cursor stream_state = Err e.
Proof.
  intros Hres Hnested. unfold stream_slices.
  apply (slices_down (depth (cls self))); [lia|exact Hres|exact Hnested].
Qed.

End TransportFailure.

Lemma nested_stream_slices_in_order_witness :
  class_stream_slices (H := IsoLib.lib) (H0 := SampleApi.api) 3 MessageMedia
    tt SyncMode.incremental (JStr "date_updated") None
  = Ok [Some {[ "subresource_uri" := SampleApi.media_uri "SM2" ]}].
Proof.
  refine (eq_trans
    (nested_stream_slices_in_order (H := IsoLib.lib) (H0 := SampleApi.api)
       3 MessageMedia Messages tt SyncMode.incremental (JStr "date_updated")
       None
       [Some {[ "subresource_uri" :=
                  JStr "/2010-04-01/Accounts/AC1/Messages.json" ]};
        Some {[ "subresource_uri" :=
                  JStr "/2010-04-01/Accounts/AC2/Messages.json" ]}]
       [message "SM1" "0" (SampleApi.media_uri "SM1");
        message "SM2" "2" (SampleApi.media_uri "SM2")]
       eq_refl eq_refl _ _ eq_refl) _).
  - vm_compute. reflexivity.
  - vm_compute. reflexivity.
  - vm_compute. reflexivity.
Defined.

Lemma one_slice_per_parent_record_witness :
  class_stream_slices (H := IsoLib.lib) (H0 := SampleAddresses.api) 2
    DependentPhoneNumbers_class tt SyncMode.full_refresh (JArr []) None
  = Ok [Some (<["account_sid" := JStr "AC1"]> {[ "sid" := JStr "AD1" ]})]
  /\ class_stream_slices (H := IsoLib.lib) (H0 := SampleApi.api) 3
       UsageRecords tt SyncMode.full_refresh (JStr "end_date") None
     = Ok [Some {[ "account_sid" := JStr "AC1" ]};
           Some {[ "account_sid" := JStr "AC2" ]}].
Proof.
  split.
  - refine (eq_trans
      (proj1 (one_slice_per_parent_record (H := IsoLib.lib)
                (H0 := SampleAddresses.api) 2 DependentPhoneNumbers_class
                Addresses tt SyncMode.full_refresh (JArr []) None
                [Some {[ "subresource_uri" :=
                           JStr "/2010-04-01/Accounts/AC1/Addresses.json" ]}]
                [SampleAddresses.address] eq_refl _ _) eq_refl eq_refl) _).
    + vm_compute. reflexivity.
    + vm_compute. reflexivity.
    + vm_compute. reflexivity.
  - refine (eq_trans
      (proj2 (one_slice_per_parent_record (H := IsoLib.lib)
                (H0 := SampleApi.api) 3 UsageRecords Accounts tt
                SyncMode.full_refresh (JStr "end_date") None [None]
                [account "AC1"; account "AC2"] eq_refl _ _)
         "Records" eq_refl eq_refl) _).
    + vm_compute. reflexivity.
    + vm_compute. reflexivity.
    + vm_compute. reflexivity.
Defined.

Lemma yielded_slices_have_paths_witness :
  exists p,
    path (H := IsoLib.lib)
      (@mkInstance SampleAddresses.api DependentPhoneNumbers_class tt None)
      (Some (<["account_sid" := JStr "AC1"]> {[ "sid" := JStr "AD1" ]}))
    = Ok p /\ truthy p = true.
Proof.
  apply (yielded_slices_have_paths (H := IsoLib.lib)
           (H0 := SampleAddresses.api)
           (@mkInstance SampleAddresses.api DependentPhoneNumbers_class tt
              None)
           (JObj SampleAddresses.address)
           [Some (<["account_sid" := JStr "AC1"]> {[ "sid" := JStr "AD1" ]})]
           eq_refl eq_refl).
  left. reflexivity.
Defined.

Lemma unreadable_parent_record_raises_witness :
  TwilioNestedStream.slices_of_item MessageMedia (JStr "SM1")
    = Err AttributeError
  /\ TwilioNestedStream.slices_of_item MessageMedia
       (JObj [("sid", JStr "SM1"); ("subresource_uris", JNull)])
     = Err AttributeError
  /\ DependentPhoneNumbers.slices_of_item (JObj [("account_sid", JStr "AC1")])
     = Err (KeyError "sid")
  /\ DependentPhoneNumbers.slices_of_item (JObj [("sid", JStr "AD1")])
     = Err (KeyError "account_sid").
Proof.
  destruct unreadable_parent_record_raises as (Hitem & Huris & Hsid & Hacc).
  split; [|split; [|split]].
  - apply Hitem. discriminate.
  - apply (Huris MessageMedia _ JNull); [reflexivity|discriminate].
  - apply (Hsid [("account_sid", JStr "AC1")]). reflexivity.
  - apply (Hacc [("sid", JStr "AD1")] (JStr "AD1")); reflexivity.
Defined.

Lemma validation_order_is_irrelevant_witness :
  let item := JObj (message "SM1" "2" (SampleApi.media_uri "SM1")) in
  TwilioNestedStream.slices_of_item
    (media_checked [("num_media", "0"); ("sid", "")]) item
  = TwilioNestedStream.slices_of_item
      (media_checked [("sid", ""); ("num_media", "0")]) item.
Proof.
  intros item.
  apply (validation_order_is_irrelevant
           (media_checked [("num_media", "0"); ("sid", "")])
           (media_checked [("sid", ""); ("num_media", "0")]) item eq_refl).
  apply perm_swap.
Defined.

Lemma transport_failure_propagates_witness :
  stream_slices (H := IsoLib.lib) (H0 := DownApi.api) 1
    (@mkInstance DownApi.api DependentPhoneNumbers_class tt None)
    SyncMode.full_refresh (JArr []) None
  = Err HTTPError.
Proof.
  apply (transport_failure_propagates (H := IsoLib.lib) (H0 := DownApi.api)
           HTTPError (fun _ _ _ _ => eq_refl) 0
           (@mkInstance DownApi.api DependentPhoneNumbers_class tt None));
    reflexivity.
Defined.

(** ** Paths, and how the methods compose *)

Section PathsAndComposition.
Context `{PyLib} `{Framework}.

(** X18. The paths of the nested classes need the keys of their slices.
    Without slice they raise [TypeError]. The generic nested stream raises
    [KeyError] for a slice without [subresource_uri], a usage stream for a
    slice without [account_sid]; [DependentPhoneNumbers] reads
    [account_sid] first, then [sid]. With identifiers that are [str], the
    path of [DependentPhoneNumbers] is
    [Accounts/{account_sid}/Addresses/{sid}/DependentPhoneNumbers.json]. *)
Theorem nested_paths_need_slice_keys :
  (TwilioNestedStream.path None = Err TypeError
   /\ DependentPhoneNumbers.path None = Err TypeError
   /\ forall path_name, UsageNestedStream.path path_name None = Err TypeError)
  /\ (forall (sl : mapping),
       sl !! "subresource_uri" = None ->
       TwilioNestedStream.path (Some sl) = Err (KeyError "subresource_uri"))
  /\ (forall (sl : mapping) path_name,
       sl !! "account_sid" = None ->
       UsageNestedStream.path path_name (Some sl)
         = Err (KeyError "account_sid")
       /\ DependentPhoneNumbers.path (Some sl) = Err (KeyError "account_sid"))
  /\ (forall (sl : mapping) account_sid,
       sl !! "account_sid" = Some account_sid -> sl !! "sid" = None ->
       DependentPhoneNumbers.path (Some sl) = Err (KeyError "sid"))
  /\ (forall (sl : mapping) (account_sid sid : string),
       sl !! "account_sid" = Some (JStr account_sid) ->
       sl !! "sid" = Some (JStr sid) ->
       DependentPhoneNumbers.path (Some sl)
       = Ok (JStr ("Accounts/" ++ account_sid ++ "/Addresses/" ++ sid
                   ++ "/DependentPhoneNumbers.json"))).
Proof.
  unfold TwilioNestedStream.path, DependentPhoneNumbers.path,
    UsageNestedStream.path, slice_getitem.
  split; [repeat split|]. split; [|split; [|split]].
  - intros sl ->. reflexivity.
  - intros sl path_name ->. split; reflexivity.
  - intros sl account_sid -> ->. reflexivity.
  - intros sl account_sid sid -> ->. reflexivity.
Qed.

(** X19. Every request carries the page size: whatever the class, the
    start date, the state and the page token, the parameters that
    [request_params] returns hold [PageSize], provided the filter field of
    the class is not itself [PageSize]. *)
Theorem every_request_has_page_size (self : instance) (stream_state : mapping)
    (next_page_token : option mapping) (params : mapping) :
  filter_field_of (cls self) <> "PageSize" ->
  request_params self stream_state next_page_token = Ok params ->
  is_Some (params !! "PageSize").
Proof.
  unfold request_params, filter_field_of.
  pose proof (page_size_present stream_state next_page_token) as Hsize.
  destruct (stream_incremental (cls self)) as [i|].
  - intros Hfilter. unfold IncrementalTwilioStream.request_params.
    destruct (truthy _).
    + destruct (pendulum_parse true _) as [parsed|e0]; [|discriminate].
      cbn [bind]. intros Hp. injection Hp as <-.
      unfold py_update. rewrite <- insert_union_singleton_l.
      rewrite lookup_insert_ne by exact Hfilter. exact Hsize.
    + intros Hp. injection Hp as <-. exact Hsize.
  - intros _ Hp. injection Hp as <-. exact Hsize.
Qed.

(** X20. The state of a run is the filter of the next request. After
    [get_updated_state] has taken a record whose cursor field formats to a
    [str] that is not empty, [request_params] with the new state filters
    from the new watermark, whatever the start date of the stream, as soon
    as the watermark parses. *)
Theorem updated_state_is_next_filter (self : incremental) (state : mapping)
    (record : json) (b : string) :
  typed_state (cursor_field self) state = true ->
  latest_benchmark self record = Ok b ->
  b <> "" ->
  exists state' w,
    IncrementalTwilioStream.get_updated_state self state record = Ok state'
    /\ watermark (cursor_field self) state' = w
    /\ String.leb b w = true
    /\ forall start_date next_page_token parsed,
         pendulum_parse true (JStr w) = Ok parsed ->
         IncrementalTwilioStream.request_params self start_date state'
           next_page_token
         = Ok (<[ incremental_filter_field self :=
                    JStr (strftime parsed (time_filter_template self)) ]>
                 (TwilioStream.request_params state next_page_token)).
Proof.
  intros Htyped Hb Hne.
  set (w := str_max b (watermark (cursor_field self) state)).
  exists {[ cursor_field self := JStr w ]}, w.
  split; [apply (get_updated_state_max self state record b Htyped Hb)|].
  split; [apply watermark_singleton|]. split; [apply str_max_l|].
  intros start_date next_page_token parsed Hparse.
  assert (Hw : w <> "").
  { intros Hw. pose proof (str_max_l b (watermark (cursor_field self) state))
      as Hle. fold w in Hle. rewrite Hw in Hle.
    destruct b; [congruence|discriminate Hle]. }
  unfold IncrementalTwilioStream.request_params, py_or, map_get.
  rewrite lookup_singleton_eq. cbn [truthy].
  destruct (String.eqb_spec w "") as [E|_]; [congruence|]. cbn [negb truthy].
  destruct (String.eqb_spec w "") as [E|_]; [congruence|]. cbn [negb].
  rewrite Hparse. cbn [bind]. unfold py_update.
  rewrite insert_union_singleton_l. reflexivity.
Qed.

End PathsAndComposition.

(** X21. The class table is in dependency order: every class of the
    connector has a chain of parents that ends, after at most two steps, in
    [Accounts] or in itself when it has no parent; every nested class has
    a parent; and no filter field is [PageSize]. *)
Theorem class_table_is_resolvable :
  forall self, In self all_streams ->
    resolvable self = true
    /\ (depth self <= 2)%nat
    /\ (is_nested (stream_shape self) = true -> root self = Accounts)
    /\ (is_nested (stream_shape self) = false -> parent_stream self = None)
    /\ filter_field_of self <> "PageSize".
Proof.
  intros self Hin. cbn [all_streams In] in Hin.
  repeat (destruct Hin as [<-|Hin];
          [split; [reflexivity|];
           split; [cbn; lia|];
           split; [intros Hn; try discriminate Hn; reflexivity|];
           split; [intros Hn; try discriminate Hn; reflexivity|];
           discriminate|]).
  destruct Hin.
Qed.

Lemma nested_paths_need_slice_keys_witness :
  TwilioNestedStream.path (Some {[ "sid" := JStr "AD1" ]})
    = Err (KeyError "subresource_uri")
  /\ DependentPhoneNumbers.path (H := IsoLib.lib)
       (Some {[ "sid" := JStr "AD1" ]}) = Err (KeyError "account_sid")
  /\ DependentPhoneNumbers.path (H := IsoLib.lib)
       (Some {[ "account_sid" := JStr "AC1" ]}) = Err (KeyError "sid")
  /\ DependentPhoneNumbers.path (H := IsoLib.lib)
       (Some (<["account_sid" := JStr "AC1"]> {[ "sid" := JStr "AD1" ]}))
     = Ok (JStr "Accounts/AC1/Addresses/AD1/DependentPhoneNumbers.json").
Proof.
  destruct (nested_paths_need_slice_keys (H := IsoLib.lib))
    as (_ & Hnested & Hacc & Hsid & Hok).
  split; [|split; [|split]].
  - apply Hnested. reflexivity.
  - apply (Hacc {[ "sid" := JStr "AD1" ]} "Records"). reflexivity.
  - apply (Hsid {[ "account_sid" := JStr "AC1" ]} (JStr "AC1")); reflexivity.
  - apply (Hok (<["account_sid" := JStr "AC1"]> {[ "sid" := JStr "AD1" ]})
             "AC1" "AD1"); reflexivity.
Defined.

Lemma every_request_has_page_size_witness :
  is_Some
    (<["EndTime>" := JStr "2021-01-01T00:00:00Z"]>
       ({[ "PageSize" := JNum 100 ]} : mapping) !! "PageSize").
Proof.
  apply (every_request_has_page_size (H := IsoLib.lib) (H0 := SampleApi.api)
           (@mkInstance SampleApi.api Calls tt
              (Some "2021-01-01T00:00:00Z")) ∅ None).
  - discriminate.
  - reflexivity.
Defined.

Lemma updated_state_is_next_filter_witness :
  exists state',
    IncrementalTwilioStream.get_updated_state (H := IsoLib.lib)
      calls_incremental ∅ (call_ended "2021-06-01T00:00:00Z") = Ok state'
    /\ IncrementalTwilioStream.request_params (H := IsoLib.lib)
         calls_incremental (Some "2021-01-01T00:00:00Z") state' None
       = Ok (<["EndTime>" := JStr "2021-06-01T00:00:00Z"]>
               {[ "PageSize" := JNum 100 ]}).
Proof.
  destruct (updated_state_is_next_filter (H := IsoLib.lib) calls_incremental
              ∅ (call_ended "2021-06-01T00:00:00Z") "2021-06-01T00:00:00Z")
    as (state' & w & Hrun & Hw & _ & Hnext);
    [reflexivity|reflexivity|discriminate|].
  exists state'. split; [exact Hrun|].
  assert (Hw' : w = "2021-06-01T00:00:00Z").
  { vm_compute in Hrun. injection Hrun as <-. rewrite <- Hw.
    vm_compute. reflexivity. }
  subst w.
  rewrite (Hnext (Some "2021-01-01T00:00:00Z") None
             (IsoLib.mkDateTime 2021 6 1 0 0 0)).
  - reflexivity.
  - rewrite Hw'. reflexivity.
Defined.

Lemma class_table_is_resolvable_witness :
  resolvable MessageMedia = true /\ root MessageMedia = Accounts.
Proof.
  destruct (class_table_is_resolvable MessageMedia) as (Hres & _ & Hroot & _).
  - cbn [all_streams In]. do 18 right. left. reflexivity.
  - split; [exact Hres|]. apply Hroot. reflexivity.
Defined.
